(** * CineNotes: the media acquisition and decomposition pipeline

  A shallow embedding of the class [YouTubeVideoProcessor] of
  [experiments/experiment.ipynb] and the properties of its four methods
  and of its static filename sanitizer.

  Python [str] values are modelled as [string]; a character is a code
  point below 256.  The session object is a record, the methods are
  computations in a state-and-exception monad over the session and the
  host's filesystem, and the three external collaborators (the video
  provider client, the operating system, the decoder executable) are the
  fields of a [Host] record. *)

From Stdlib Require Import List Ascii String NArith ZArith Bool Lia.
From stdpp Require Import base gmap strings.

Import ListNotations.
Open Scope string_scope.
Open Scope list_scope.

(** ** Characters and their classification *)

Module Char.

Definition code (c : ascii) : N := N_of_ascii c.

Definition between (lo hi : N) (c : ascii) : bool :=
  ((lo <=? code c) && (code c <=? hi))%N.

(** [str.isalnum] on a single character: letters, decimal digits and the
    other numeric characters of the first 256 code points. *)
Definition isalnum (c : ascii) : bool :=
  between 48 57 c || between 65 90 c || between 97 122 c
  || between 170 170 c || between 178 179 c || between 181 181 c
  || between 185 186 c || between 188 190 c
  || between 192 214 c || between 216 246 c || between 248 255 c.

(** [str.isspace] on a single character: what [str.strip()] removes. *)
Definition isspace (c : ascii) : bool :=
  between 9 13 c || between 28 32 c || between 133 133 c
  || between 160 160 c.

(** [c in (' ', '.', '_', '-')] *)
Definition is_listed (c : ascii) : bool :=
  Ascii.eqb c " " || Ascii.eqb c "." || Ascii.eqb c "_" || Ascii.eqb c "-".

(** The condition of the generator expression in [_sanitize_filename]. *)
Definition kept (c : ascii) : bool := isalnum c || is_listed c.

End Char.

(** ** Stripping a sequence at both ends

    [str.strip()] removes the longest run of whitespace at each end. *)

Section StripDefs.
Context {A : Type} (ws : A -> bool).

Fixpoint lstrip_by (l : list A) : list A :=
  match l with
  | [] => []
  | c :: r => if ws c then lstrip_by r else l
  end.

Definition rstrip_by (l : list A) : list A := rev (lstrip_by (rev l)).

Definition strip_by (l : list A) : list A := rstrip_by (lstrip_by l).

(** The first element, when there is one, is not in the stripped class. *)
Definition clean_head (l : list A) : Prop :=
  match l with
  | [] => True
  | c :: _ => ws c = false
  end.

End StripDefs.

(** ** The filename sanitizer

    [return "".join(c for c in name
                    if c.isalnum() or c in (' ', '.', '_', '-')).strip()] *)

Definition _sanitize_filename (name : string) : string :=
  string_of_list_ascii
    (strip_by Char.isspace
       (List.filter Char.kept (list_ascii_of_string name))).

(** ** Exceptions *)

(** Modelled from the spec: the class [CineNotesException] of
    [cine_notes.exception], which is not among the sources at hand.  By
    the propagation policy every failure is re-raised "wrapped with
    contextual information (operation name, and where feasible
    originating call site)": it is an exception class of its own, built
    from the message of the operation (and the [sys] module, from which
    it can only read the exception being handled), and since it is
    raised inside an [except] clause the exception being handled is its
    context.  The methods catch [ValueError] before [Exception] and
    document the two as separate outcomes.  The other constructors are
    the built-in exceptions that can reach the handlers, and
    [ProviderError] stands for whatever the provider client raises. *)
Inductive exn : Type :=
| ValueError (msg : string)
| TypeError (msg : string)
| AttributeError (msg : string)
| OSError (path : string)
| FileExistsError (path : string)
| FileNotFoundError (program : string)
| CalledProcessError (returncode : Z) (cmd : list string)
                     (output stderr : option string)
| ProviderError (msg : string)
| CineNotesException (msg : string) (context : exn).

(** The name of the class of an exception, as [type(e).__name__]. *)
Definition type_name (e : exn) : string :=
  match e with
  | ValueError _ => "ValueError"
  | TypeError _ => "TypeError"
  | AttributeError _ => "AttributeError"
  | OSError _ => "OSError"
  | FileExistsError _ => "FileExistsError"
  | FileNotFoundError _ => "FileNotFoundError"
  | CalledProcessError _ _ _ _ => "CalledProcessError"
  | ProviderError _ => "ProviderError"
  | CineNotesException _ _ => "CineNotesException"
  end.

(** [isinstance(e, ValueError)], the test of [except ValueError]. *)
Definition is_ValueError (e : exn) : bool :=
  match e with
  | ValueError _ => true
  | _ => false
  end.


(** The diagnostic output of the command that an exception carries, on
    itself or on the exception it was raised from. *)
Fixpoint captured_output (e : exn) : option string :=
  match e with
  | CalledProcessError _ _ out err =>
      match err with
      | Some d => Some d
      | None => out
      end
  | CineNotesException _ c => captured_output c
  | _ => None
  end.

Inductive result (A : Type) : Type :=
| Return (a : A)
| Raise (e : exn).

Arguments Return {A} a.
Arguments Raise {A} e.

(** ** Computations: state that survives an exception *)

Definition Comp (S A : Type) : Type := S -> result A * S.

Definition ret {S A} (a : A) : Comp S A := fun s => (Return a, s).

Definition raise {S A} (e : exn) : Comp S A := fun s => (Raise e, s).

Definition bind {S A B} (m : Comp S A) (k : A -> Comp S B) : Comp S B :=
  fun s =>
    match m s with
    | (Return a, s') => k a s'
    | (Raise e, s') => (Raise e, s')
    end.

(** [try: body  except Exception as e: handler(e)] *)
Definition try_except {S A} (body : Comp S A) (handler : exn -> Comp S A)
  : Comp S A :=
  fun s =>
    match body s with
    | (Return a, s') => (Return a, s')
    | (Raise e, s') => handler e s'
    end.

Declare Scope comp_scope.
Delimit Scope comp_scope with comp.
Notation "x <- m ;; k" := (bind m (fun x => k))
  (at level 100, m at next level, right associativity) : comp_scope.
Notation "m ;; k" := (bind m (fun _ => k))
  (at level 100, right associativity) : comp_scope.
Open Scope comp_scope.

(** ** The host: filesystem, provider and decoder *)

(** How a call of [os.makedirs(path, exist_ok=True)] ends. *)
Inductive mkdir_outcome : Type :=
| Created
| Existed
| Failed.

Inductive event : Type :=
| EvMakedirs (path : string) (o : mkdir_outcome)
| EvPersist (path : string)
| EvRun (cmd : list string).

(** The directories and the regular files that exist, by path, and the
    calls made so far that reach outside the process, oldest first. *)
Record World : Type := {
  dirs : gset string;
  files : gset string;
  trace : list event
}.

Definition log (e : event) (w : World) : World :=
  {| dirs := dirs w; files := files w; trace := trace w ++ [e] |}.

(** A stream of the provider: [download(output_path, filename)] either
    returns the path of the file it has written or raises. *)
Record Stream : Type := {
  download : World -> string -> string -> result string
}.

(** A [pytube.YouTube] object: [streams.get_highest_resolution()], which
    returns a stream or [None], and [title]. *)
Record YouTubeObj : Type := {
  streams_get_highest_resolution : result (option Stream);
  title : result string
}.

(** How the launch of a command ends: the executable is not there, or the
    process runs and exits with a status, or an argument holds a NUL
    character and nothing is launched at all. *)
Inductive launch : Type :=
| NotFound
| Exited (returncode : Z)
| EmbeddedNul.

(** What the code cannot decide by itself.  Every answer may depend on
    the state of the world at the time of the call.  [run_process] says
    how a command that can be handed to the operating system ends: [None]
    when the executable is not there, the exit status otherwise. *)
Record Host : Type := {
  os_path_abspath : string -> string;
  mkdir_refused : World -> string -> bool;
  YouTube : World -> string -> result YouTubeObj;
  run_process : World -> list string -> option Z
}.

(** Whether a string holds the character of code 0. *)
Definition has_nul (s : string) : bool :=
  existsb (Ascii.eqb "000") (list_ascii_of_string s).

(** What becomes of the launch of [cmd]: an argument with a NUL is refused
    before the operating system is asked. *)
Definition spawn (h : Host) (w : World) (cmd : list string) : launch :=
  if existsb has_nul cmd then EmbeddedNul
  else match run_process h w cmd with
       | None => NotFound
       | Some rc => Exited rc
       end.

Definition nul_msg : string := "embedded null byte".

(** ** Library calls *)

(** [path.endswith('/')] *)
Definition endswith_sep (a : string) : bool :=
  String.eqb (String.substring (String.length a - 1) 1 a) "/".

(** [os.path.join(a, b)]: an absolute [b] replaces [a]; otherwise [b] is
    appended, after a separator unless [a] is empty or ends with one. *)
Definition os_path_join (a b : string) : string :=
  if String.prefix "/" b then b
  else if String.eqb a "" || endswith_sep a then a +:+ b
  else a +:+ "/" +:+ b.

(** The paths that are proper ancestors of [p]: its prefixes that end
    before a separator. *)
Fixpoint ancestors_from (pre rest : string) : list string :=
  match rest with
  | EmptyString => []
  | String c r =>
      (if Ascii.eqb c "/" && negb (String.eqb pre "") then [pre] else [])
        ++ ancestors_from (pre +:+ String c EmptyString) r
  end.

Definition ancestors (p : string) : list string := ancestors_from "" p.

(** The components of a path: what stands between its separators. *)
Fixpoint split_sep (cur rest : string) : list string :=
  match rest with
  | EmptyString => [cur]
  | String c r =>
      if Ascii.eqb c "/" then cur :: split_sep "" r
      else split_sep (cur +:+ String c EmptyString) r
  end.

(** One more component on the way down; [up] holds the components
    walked so far, innermost first.  Empty components and [.] stay where
    they are, [..] goes one up. *)
Definition walk (absolute : bool) (up : list string) (comp : string)
  : list string :=
  if String.eqb comp "" || String.eqb comp "." then up
  else if String.eqb comp ".." then
    match up with
    | [] => if absolute then [] else [".."]
    | top :: below => if String.eqb top ".." then ".." :: up else below
    end
  else comp :: up.

(** Where a path leads, symbolic links aside: whether it starts at the
    root, and the components that remain. *)
Definition path_key (p : string) : bool * list string :=
  (String.prefix "/" p,
   rev (fold_left (walk (String.prefix "/" p)) (split_sep "" p) [])).

(** Two paths to the same place, such as [base] and [base/]. *)
Definition same_dir (p q : string) : bool :=
  bool_decide (path_key p = path_key q).

(** [os.path.isdir(p)] when [p] itself is not among the known names. *)
Definition known_dir (w : World) (p : string) : bool :=
  existsb (same_dir p) (elements (dirs w)).

Definition add_dir (p : string) (w : World) : World :=
  {| dirs := {[p]} ∪ dirs w; files := files w; trace := trace w |}.

(** The recursive part of [os.makedirs]: the missing ancestors are
    created from the top down; the first that cannot be created stops the
    descent, and those created before it stay. *)
Fixpoint make_ancestors (h : Host) (qs : list string) (w : World)
  : option string * World :=
  match qs with
  | [] => (None, w)
  | q :: r =>
      if bool_decide (q ∈ dirs w) || known_dir w q then make_ancestors h r w
      else if bool_decide (q ∈ files w) || mkdir_refused h w q
      then (Some q, w)
      else make_ancestors h r (add_dir q w)
  end.

(** [os.makedirs(p, exist_ok=True)]: nothing to do when the directory is
    there, under this or another name; otherwise the missing ancestors
    and then the directory are created, unless the path holds a NUL, a
    regular file is in the way or the host refuses. *)
Definition os_makedirs (h : Host) (p : string) : Comp World unit :=
  fun w =>
    if decide (p ∈ dirs w) then (Return tt, log (EvMakedirs p Existed) w)
    else if known_dir w p
    then (Return tt, log (EvMakedirs p Existed) (add_dir p w))
    else if has_nul p
    then (Raise (ValueError nul_msg), log (EvMakedirs p Failed) w)
    else
      match make_ancestors h (ancestors p) w with
      | (Some q, w1) => (Raise (OSError q), log (EvMakedirs p Failed) w1)
      | (None, w1) =>
          if decide (p ∈ files w1)
          then (Raise (FileExistsError p), log (EvMakedirs p Failed) w1)
          else if mkdir_refused h w1 p
          then (Raise (OSError p), log (EvMakedirs p Failed) w1)
          else (Return tt, log (EvMakedirs p Created) (add_dir p w1))
      end.

(** The world once a file has been written at [p]. *)
Definition persist (p : string) (w : World) : World :=
  {| dirs := dirs w; files := {[p]} ∪ files w;
     trace := trace w ++ [EvPersist p] |}.

(** [stream.download(output_path=..., filename=...)]; on [None] the
    attribute lookup fails.  A download that raises leaves no file that
    is tracked here. *)
Definition stream_download (stream : option Stream)
    (output_path filename : string) : Comp World string :=
  fun w =>
    match stream with
    | None =>
        (Raise (AttributeError
                  "'NoneType' object has no attribute 'download'"), w)
    | Some st =>
        match download st w output_path filename with
        | Return p => (Return p, persist p w)
        | Raise e => (Raise e, w)
        end
    end.

(** [subprocess.run(cmd, check=True)]: nothing of the process is
    captured, so the [CalledProcessError] has no output; an argument with
    a NUL makes the call raise a [ValueError] before anything is
    launched.  The call is recorded however it ends. *)
Definition subprocess_run (h : Host) (cmd : list string) : Comp World unit :=
  fun w =>
    let w1 := log (EvRun cmd) w in
    match spawn h w cmd with
    | NotFound => (Raise (FileNotFoundError (hd "" cmd)), w1)
    | Exited 0 => (Return tt, w1)
    | Exited rc => (Raise (CalledProcessError rc cmd None None), w1)
    | EmbeddedNul => (Raise (ValueError nul_msg), w1)
    end.

(** A call of a provider object that does not touch the filesystem. *)
Definition call {S A} (r : result A) : Comp S A := fun s => (r, s).

(** ** The session object *)

Record Session : Type := {
  youtube_url : string;
  output_base_dir : string;
  video_filename : option string;
  video_dir : option string;
  audio_dir : option string;
  frames_dir : option string
}.

(** A method runs on the object and the world together. *)
Definition Method (A : Type) : Type := Comp (Session * World) A.

Definition get_self : Method Session := fun st => (Return (fst st), st).

Definition on_world {A} (m : Comp World A) : Method A :=
  fun st =>
    match m (snd st) with
    | (r, w') => (r, (fst st, w'))
    end.

Definition get_world : Method World := fun st => (Return (snd st), st).

(** The four assignments [self.<field> = v] that the class makes after
    construction. *)
Definition with_video_filename (v : string) (s : Session) : Session :=
  {| youtube_url := youtube_url s; output_base_dir := output_base_dir s;
     video_filename := Some v; video_dir := video_dir s;
     audio_dir := audio_dir s; frames_dir := frames_dir s |}.

Definition with_video_dir (v : string) (s : Session) : Session :=
  {| youtube_url := youtube_url s; output_base_dir := output_base_dir s;
     video_filename := video_filename s; video_dir := Some v;
     audio_dir := audio_dir s; frames_dir := frames_dir s |}.

Definition with_audio_dir (v : string) (s : Session) : Session :=
  {| youtube_url := youtube_url s; output_base_dir := output_base_dir s;
     video_filename := video_filename s; video_dir := video_dir s;
     audio_dir := Some v; frames_dir := frames_dir s |}.

Definition with_frames_dir (v : string) (s : Session) : Session :=
  {| youtube_url := youtube_url s; output_base_dir := output_base_dir s;
     video_filename := video_filename s; video_dir := video_dir s;
     audio_dir := audio_dir s; frames_dir := Some v |}.

Definition assign (f : Session -> Session) : Method unit :=
  fun st => (Return tt, (f (fst st), snd st)).

(** Modelled from the spec: [logging.info(msg)] with the logger of
    [cine_notes.logger], which is not among the sources at hand.  Logging
    is out of the scope of the pipeline: a call reads and changes nothing
    of the session or the filesystem, and returns. *)
Definition logging_info {S} (msg : string) : Comp S unit := ret tt.

(** [os.path.join(d, name)] where [d] is a field that may still be [None]. *)
Definition join_field {S} (d : option string) (name : string) : Comp S string :=
  match d with
  | Some a => ret (os_path_join a name)
  | None =>
      raise (TypeError
               "expected str, bytes or os.PathLike object, not NoneType")
  end.

(** [except Exception as e: raise CineNotesException(msg, sys)] *)
Definition wrap {S A} (msg : string) (e : exn) : Comp S A :=
  raise (CineNotesException msg e).

(** [except ValueError as ve: raise ve
     except Exception as e: raise CineNotesException(msg, sys)] *)
Definition reraise_or_wrap {S A} (msg : string) (e : exn) : Comp S A :=
  if is_ValueError e then raise e else wrap msg e.

Definition no_video_msg : string :=
  "No video has been downloaded. Call download_video() first.".

Definition download_failed : string := "Failed to download video".

Section Processor.
Variable h : Host.

(** [YouTubeVideoProcessor(youtube_url, output_base_dir)] *)
Definition __init__ (url : string) (base : string) : Comp World Session :=
  try_except
    (let base_dir := os_path_abspath h base in
     os_makedirs h base_dir ;;
     logging_info
       ("Initialized YouTubeVideoProcessor with output directory: "
          +:+ base_dir) ;;
     ret {| youtube_url := url; output_base_dir := base_dir;
            video_filename := None; video_dir := None;
            audio_dir := None; frames_dir := None |})
    (wrap "Failed to initialize YouTubeVideoProcessor").

Definition download_video : Method string :=
  try_except
    (self <- get_self ;;
     logging_info ("Starting video download from: " +:+ youtube_url self) ;;
     w <- get_world ;;
     yt <- call (YouTube h w (youtube_url self)) ;;
     stream <- call (streams_get_highest_resolution yt) ;;
     t <- call (title yt) ;;
     let video_title := _sanitize_filename t in
     let vdir := os_path_join (output_base_dir self) video_title in
     assign (with_video_dir vdir) ;;
     on_world (os_makedirs h vdir) ;;
     file <- on_world (stream_download stream vdir "video.mp4") ;;
     assign (with_video_filename file) ;;
     logging_info ("Video downloaded successfully to: " +:+ file) ;;
     let adir := os_path_join vdir "audio" in
     let fdir := os_path_join vdir "frames" in
     assign (with_audio_dir adir) ;;
     assign (with_frames_dir fdir) ;;
     on_world (os_makedirs h adir) ;;
     on_world (os_makedirs h fdir) ;;
     ret file)
    (wrap download_failed).

Definition audio_cmd (video audio_path : string) : list string :=
  ["ffmpeg"; "-i"; video; "-vn"; "-acodec"; "pcm_s16le";
   "-ar"; "44100"; "-ac"; "2"; audio_path; "-y"].

Definition extract_audio (audio_filename : string) : Method string :=
  try_except
    (self <- get_self ;;
     match video_filename self with
     | None => raise (ValueError no_video_msg)
     | Some video =>
         if String.eqb video "" then raise (ValueError no_video_msg)
         else
           audio_path <- join_field (audio_dir self) audio_filename ;;
           logging_info ("Extracting audio to: " +:+ audio_path) ;;
           on_world (subprocess_run h (audio_cmd video audio_path)) ;;
           logging_info "Audio extraction completed successfully" ;;
           ret audio_path
     end)
    (reraise_or_wrap "Failed to extract audio").

Definition frames_cmd (video frame_pattern : string) : list string :=
  ["ffmpeg"; "-i"; video; frame_pattern; "-y"].

Definition extract_frames (image_prefix image_format : string)
  : Method (option string) :=
  try_except
    (self <- get_self ;;
     match video_filename self with
     | None => raise (ValueError no_video_msg)
     | Some video =>
         if String.eqb video "" then raise (ValueError no_video_msg)
         else
           logging_info
             ("Extracting frames to: "
                +:+ default "None" (frames_dir self)) ;;
           frame_pattern <-
             join_field (frames_dir self)
               (image_prefix +:+ "%05d." +:+ image_format) ;;
           on_world (subprocess_run h (frames_cmd video frame_pattern)) ;;
           logging_info "Frame extraction completed successfully" ;;
           self' <- get_self ;;
           ret (frames_dir self')
     end)
    (reraise_or_wrap "Failed to extract frames").

End Processor.

(** ** The runs of [download_video], stage by stage *)

(** The three calls to the provider that precede any write: the object
    for the URL, its best stream, its title. *)
Definition resolve (h : Host) (w : World) (url : string)
  : result (option Stream * string) :=
  match YouTube h w url with
  | Raise e => Raise e
  | Return yt =>
      match streams_get_highest_resolution yt with
      | Raise e => Raise e
      | Return stream =>
          match title yt with
          | Raise e => Raise e
          | Return t => Return (stream, t)
          end
      end
  end.

(** The session once the download has returned [file] into [vdir]. *)
Definition with_video (vdir file : string) (s : Session) : Session :=
  with_frames_dir (os_path_join vdir "frames")
    (with_audio_dir (os_path_join vdir "audio")
       (with_video_filename file (with_video_dir vdir s))).

Inductive acquisition (h : Host) (s : Session) (w : World)
  : result string -> Session -> World -> Prop :=
| Acq_unresolved e :
    resolve h w (youtube_url s) = Raise e ->
    acquisition h s w (Raise (CineNotesException download_failed e)) s w
| Acq_no_video_dir stream t e w1 :
    resolve h w (youtube_url s) = Return (stream, t) ->
    os_makedirs h
      (os_path_join (output_base_dir s) (_sanitize_filename t)) w
    = (Raise e, w1) ->
    acquisition h s w (Raise (CineNotesException download_failed e))
      (with_video_dir
         (os_path_join (output_base_dir s) (_sanitize_filename t)) s)
      w1
| Acq_not_downloaded stream t e w1 :
    resolve h w (youtube_url s) = Return (stream, t) ->
    os_makedirs h
      (os_path_join (output_base_dir s) (_sanitize_filename t)) w
    = (Return tt, w1) ->
    stream_download stream
      (os_path_join (output_base_dir s) (_sanitize_filename t))
      "video.mp4" w1
    = (Raise e, w1) ->
    acquisition h s w (Raise (CineNotesException download_failed e))
      (with_video_dir
         (os_path_join (output_base_dir s) (_sanitize_filename t)) s)
      w1
| Acq_no_audio_dir stream t file e w1 w2 w3 :
    resolve h w (youtube_url s) = Return (stream, t) ->
    os_makedirs h
      (os_path_join (output_base_dir s) (_sanitize_filename t)) w
    = (Return tt, w1) ->
    stream_download stream
      (os_path_join (output_base_dir s) (_sanitize_filename t))
      "video.mp4" w1
    = (Return file, w2) ->
    os_makedirs h
      (os_path_join
         (os_path_join (output_base_dir s) (_sanitize_filename t)) "audio")
      w2
    = (Raise e, w3) ->
    acquisition h s w (Raise (CineNotesException download_failed e))
      (with_video
         (os_path_join (output_base_dir s) (_sanitize_filename t)) file s)
      w3
| Acq_no_frames_dir stream t file e w1 w2 w3 w4 :
    resolve h w (youtube_url s) = Return (stream, t) ->
    os_makedirs h
      (os_path_join (output_base_dir s) (_sanitize_filename t)) w
    = (Return tt, w1) ->
    stream_download stream
      (os_path_join (output_base_dir s) (_sanitize_filename t))
      "video.mp4" w1
    = (Return file, w2) ->
    os_makedirs h
      (os_path_join
         (os_path_join (output_base_dir s) (_sanitize_filename t)) "audio")
      w2
    = (Return tt, w3) ->
    os_makedirs h
      (os_path_join
         (os_path_join (output_base_dir s) (_sanitize_filename t)) "frames")
      w3
    = (Raise e, w4) ->
    acquisition h s w (Raise (CineNotesException download_failed e))
      (with_video
         (os_path_join (output_base_dir s) (_sanitize_filename t)) file s)
      w4
| Acq_done stream t file w1 w2 w3 w4 :
    resolve h w (youtube_url s) = Return (stream, t) ->
    os_makedirs h
      (os_path_join (output_base_dir s) (_sanitize_filename t)) w
    = (Return tt, w1) ->
    stream_download stream
      (os_path_join (output_base_dir s) (_sanitize_filename t))
      "video.mp4" w1
    = (Return file, w2) ->
    os_makedirs h
      (os_path_join
         (os_path_join (output_base_dir s) (_sanitize_filename t)) "audio")
      w2
    = (Return tt, w3) ->
    os_makedirs h
      (os_path_join
         (os_path_join (output_base_dir s) (_sanitize_filename t)) "frames")
      w3
    = (Return tt, w4) ->
    acquisition h s w (Return file)
      (with_video
         (os_path_join (output_base_dir s) (_sanitize_filename t)) file s)
      w4.

(** The session after a run that has made [n] of the four calls. *)
Definition session_after (n : nat) (vdir file : string) (s : Session)
  : Session :=
  match n with
  | 0 => s
  | 1 | 2 => with_video_dir vdir s
  | _ => with_video vdir file s
  end.

(** The events that [w'] has recorded after [w]. *)
Definition events_since (w w' : World) : list event :=
  drop (length (trace w)) (trace w').

(** A session that holds a video file path holds the audio and frames
    directories as well. *)
Definition consistent (s : Session) : Prop :=
  video_filename s <> None -> audio_dir s <> None /\ frames_dir s <> None.

(** The default arguments of the extractors. *)
Definition default_audio_filename : string := "audio.wav".
Definition default_image_prefix : string := "frame_".
Definition default_image_format : string := "jpg".

(** What [subprocess.run(cmd, check=True)] gives inside an extractor whose
    handler wraps with [msg] and lets a [ValueError] through, when the
    method would then return [a]. *)
Definition decoded {A} (msg : string) (cmd : list string) (a : A)
    (l : launch) : result A :=
  match l with
  | NotFound => Raise (CineNotesException msg (FileNotFoundError "ffmpeg"))
  | Exited 0 => Return a
  | Exited rc =>
      Raise (CineNotesException msg (CalledProcessError rc cmd None None))
  | EmbeddedNul => Raise (ValueError nul_msg)
  end.

(** ** Concrete hosts and sessions to run the methods on *)

Definition empty_world : World :=
  {| dirs := ∅; files := ∅; trace := [] |}.

(** A stream whose download succeeds and writes [output_path/filename]. *)
Definition good_stream : Stream :=
  {| download := fun _ output_path filename =>
                   Return (os_path_join output_path filename) |}.

(** A stream whose download breaks off. *)
Definition broken_stream : Stream :=
  {| download := fun _ _ _ => Raise (ProviderError "IncompleteRead") |}.

Definition clip (st : Stream) : YouTubeObj :=
  {| streams_get_highest_resolution := Return (Some st);
     title := Return "My Clip: Test!" |}.

(** A host with working directory [/work], asked for the absolute path of
    plain relative names only. *)
Definition make_host (refuse : string -> bool) (yt : result YouTubeObj)
    (l : option Z) : Host :=
  {| os_path_abspath := fun p => os_path_join "/work" p;
     mkdir_refused := fun _ p => refuse p;
     YouTube := fun _ _ => yt;
     run_process := fun _ _ => l |}.

Definition host_ok : Host :=
  make_host (fun _ => false) (Return (clip good_stream)) (Some 0%Z).


Definition host_ffmpeg_fails : Host :=
  make_host (fun _ => false) (Return (clip good_stream)) (Some 1%Z).

Definition host_unreachable : Host :=
  make_host (fun _ => false) (Raise (ProviderError "VideoUnavailable"))
    (Some 0%Z).

Definition host_broken_download : Host :=
  make_host (fun _ => false) (Return (clip broken_stream)) (Some 0%Z).

Definition host_no_audio_dir : Host :=
  make_host (String.eqb "/work/my_videos/My Clip Test/audio")
    (Return (clip good_stream)) (Some 0%Z).

Definition demo_url : string := "https://www.youtube.com/watch?v=qhomKbL-mHw".

Definition fresh_session : Session :=
  {| youtube_url := demo_url; output_base_dir := "/work/my_videos";
     video_filename := None; video_dir := None;
     audio_dir := None; frames_dir := None |}.

Definition acquired_session : Session :=
  {| youtube_url := demo_url; output_base_dir := "/work/my_videos";
     video_filename := Some "/work/my_videos/My Clip Test/video.mp4";
     video_dir := Some "/work/my_videos/My Clip Test";
     audio_dir := Some "/work/my_videos/My Clip Test/audio";
     frames_dir := Some "/work/my_videos/My Clip Test/frames" |}.

(** The world after the construction of [fresh_session] on [host_ok]. *)
Definition fresh_world : World :=
  snd (__init__ host_ok demo_url "my_videos" empty_world).

(** The world after [download_video] on [fresh_session] on [host_ok]. *)
Definition acquired_world : World :=
  snd (snd (download_video host_ok (fresh_session, fresh_world))).

(** Whether a string begins, or ends, with a whitespace character. *)
Definition leading_space (s : string) : bool :=
  match list_ascii_of_string s with
  | c :: _ => Char.isspace c
  | [] => false
  end.

Definition trailing_space (s : string) : bool :=
  match rev (list_ascii_of_string s) with
  | c :: _ => Char.isspace c
  | [] => false
  end.

(** ** Callers of the class *)

(** A call that a user of a session can make after construction. *)
Inductive op : Type :=
| OpDownload
| OpExtractAudio (audio_filename : string)
| OpExtractFrames (image_prefix image_format : string).

(** One call on the object; whether it returns or raises, the object and
    the world go on as the call has left them. *)
Definition step (h : Host) (st : Session * World) (o : op)
  : Session * World :=
  match o with
  | OpDownload => snd (download_video h st)
  | OpExtractAudio f => snd (extract_audio h f st)
  | OpExtractFrames p f => snd (extract_frames h p f st)
  end.

Definition run_ops (h : Host) (ops : list op) (st : Session * World)
  : Session * World :=
  fold_left (step h) ops st.


(** A host whose provider knows the title but offers no stream. *)
Definition host_no_stream : Host :=
  make_host (fun _ => false)
    (Return {| streams_get_highest_resolution := Return None;
               title := Return "My Clip: Test!" |})
    (Some 0%Z).

(** What one call keeps. *)
Definition kept_by_calls (st st' : Session * World) : Prop :=
  youtube_url (fst st') = youtube_url (fst st)
  /\ output_base_dir (fst st') = output_base_dir (fst st)
  /\ (video_filename (fst st) <> None -> video_filename (fst st') <> None)
  /\ dirs (snd st) ⊆ dirs (snd st')
  /\ files (snd st) ⊆ files (snd st')
  /\ trace (snd st) `prefix_of` trace (snd st').

(** A host whose provider resolves a title that holds nothing to keep. *)
Definition host_untitled : Host :=
  make_host (fun _ => false)
    (Return {| streams_get_highest_resolution := Return (Some good_stream);
               title := Return " ?!* " |})
    (Some 0%Z).

(** A host that refuses to create the base directory of the demo. *)
Definition host_no_base : Host :=
  make_host (String.eqb "/work/my_videos") (Return (clip good_stream))
    (Some 0%Z).

(** A file name with a NUL in it, ['a\x00.wav']. *)
Definition nul_name : string := String "a" (String "000" ".wav").

(** A session whose video file path is the empty string. *)
Definition hollow_session : Session :=
  with_video_filename "" fresh_session.

(** A character that leaves no trace in a sanitized name when nothing
    kept surrounds it: dropped by the filter, or whitespace. *)
Definition droppable (c : ascii) : bool :=
  negb (Char.kept c) || Char.isspace c.

Definition is_sep (c : ascii) : bool := Ascii.eqb c "/".

(** * Properties *)

(** ** Facts about stripping *)

Section StripFacts.
Context {A : Type} (ws : A -> bool).

Lemma lstrip_by_clean_head l : clean_head ws (lstrip_by ws l).
Proof.
  induction l as [|c r IH]; simpl; [exact I|].
  destruct (ws c) eqn:E; [exact IH | exact E].
Qed.

Lemma lstrip_by_fixed l : clean_head ws l -> lstrip_by ws l = l.
Proof.
  destruct l as [|c r]; simpl; [reflexivity|].
  intros ->. reflexivity.
Qed.

Lemma lstrip_by_idem l : lstrip_by ws (lstrip_by ws l) = lstrip_by ws l.
Proof. apply lstrip_by_fixed, lstrip_by_clean_head. Qed.

Lemma lstrip_by_suffix l : exists w, l = w ++ lstrip_by ws l.
Proof.
  induction l as [|c r [w IH]]; simpl.
  - exists []. reflexivity.
  - destruct (ws c).
    + exists (c :: w). simpl. f_equal. exact IH.
    + exists []. reflexivity.
Qed.

Lemma rstrip_by_prefix l : exists w, l = rstrip_by ws l ++ w.
Proof.
  unfold rstrip_by.
  destruct (lstrip_by_suffix (rev l)) as [w Hw].
  exists (rev w).
  rewrite <- rev_app_distr, <- Hw, rev_involutive. reflexivity.
Qed.

Lemma rstrip_by_idem l : rstrip_by ws (rstrip_by ws l) = rstrip_by ws l.
Proof.
  unfold rstrip_by. rewrite rev_involutive, lstrip_by_idem. reflexivity.
Qed.

Lemma rstrip_by_clean_head l :
  clean_head ws l -> clean_head ws (rstrip_by ws l).
Proof.
  intros H. destruct (rstrip_by_prefix l) as [w Hw].
  destruct (rstrip_by ws l) as [|c r]; simpl; [exact I|].
  rewrite Hw in H. exact H.
Qed.

Lemma strip_by_clean_head l : clean_head ws (strip_by ws l).
Proof. apply rstrip_by_clean_head, lstrip_by_clean_head. Qed.

Lemma strip_by_clean_last l : clean_head ws (rev (strip_by ws l)).
Proof.
  unfold strip_by, rstrip_by. rewrite rev_involutive.
  apply lstrip_by_clean_head.
Qed.

Lemma strip_by_idem l : strip_by ws (strip_by ws l) = strip_by ws l.
Proof.
  unfold strip_by at 1.
  rewrite (lstrip_by_fixed _ (strip_by_clean_head l)).
  unfold strip_by. apply rstrip_by_idem.
Qed.

Lemma strip_by_In l c : In c (strip_by ws l) -> In c l.
Proof.
  unfold strip_by. intros H.
  destruct (lstrip_by_suffix l) as [w1 H1].
  destruct (rstrip_by_prefix (lstrip_by ws l)) as [w2 H2].
  rewrite H1, H2. apply in_or_app. right. apply in_or_app. left. exact H.
Qed.

Lemma filter_fixed (p : A -> bool) l :
  (forall c, In c l -> p c = true) -> List.filter p l = l.
Proof.
  induction l as [|c r IH]; simpl; intros H; [reflexivity|].
  rewrite (H c (or_introl eq_refl)). f_equal.
  apply IH. intros d Hd. apply H. right. exact Hd.
Qed.

End StripFacts.

(** ** The sanitizer *)

Example sanitize_my_clip :
  _sanitize_filename "My Clip: Test!" = "My Clip Test".
Proof. reflexivity. Qed.

Example sanitize_trims :
  _sanitize_filename "  ?a/b-c_d.e  *" = "ab-c_d.e".
Proof. reflexivity. Qed.

Example sanitize_all_dropped : _sanitize_filename " ?!* " = "".
Proof. reflexivity. Qed.

Lemma sanitized_chars_kept name c :
  In c (list_ascii_of_string (_sanitize_filename name)) -> Char.kept c = true.
Proof.
  unfold _sanitize_filename.
  rewrite list_ascii_of_string_of_list_ascii.
  intros H. apply strip_by_In in H. apply filter_In in H. tauto.
Qed.

(** C7. The sanitizer is idempotent: sanitizing a sanitized name gives
    the same name again, for every string. *)
Theorem sanitize_idempotent (x : string) :
  _sanitize_filename (_sanitize_filename x) = _sanitize_filename x.
Proof.
  unfold _sanitize_filename at 1.
  rewrite (filter_fixed Char.kept).
  - unfold _sanitize_filename.
    rewrite list_ascii_of_string_of_list_ascii, strip_by_idem. reflexivity.
  - intros c. apply sanitized_chars_kept.
Qed.

(** C8. For every string, each character of the sanitized name is
    alphanumeric or one of space, dot, underscore and hyphen, and the
    sanitized name neither begins nor ends with whitespace; the sanitizer
    is a function of its argument alone, defined on every string, and the
    empty name is sanitized to the empty name. *)
Theorem sanitize_charset_and_trim (x : string) :
  forallb (fun c => Char.isalnum c || Char.is_listed c)
          (list_ascii_of_string (_sanitize_filename x)) = true
  /\ leading_space (_sanitize_filename x) = false
  /\ trailing_space (_sanitize_filename x) = false
  /\ _sanitize_filename "" = "".
Proof.
  split; [|split; [|split]].
  - apply forallb_forall. intros c Hc.
    apply (sanitized_chars_kept x c Hc).
  - unfold leading_space, _sanitize_filename.
    rewrite list_ascii_of_string_of_list_ascii.
    pose proof (strip_by_clean_head Char.isspace
                  (List.filter Char.kept (list_ascii_of_string x))) as H.
    destruct (strip_by _ _); [reflexivity | exact H].
  - unfold trailing_space, _sanitize_filename.
    rewrite list_ascii_of_string_of_list_ascii.
    pose proof (strip_by_clean_last Char.isspace
                  (List.filter Char.kept (list_ascii_of_string x))) as H.
    destruct (rev _); [reflexivity | exact H].
  - reflexivity.
Qed.

(** ** The two extractors, case by case *)

Ltac run_method :=
  cbv beta iota zeta delta
    [extract_audio extract_frames download_video __init__
     try_except bind ret raise get_self get_world on_world call
     logging_info join_field reraise_or_wrap wrap is_ValueError
     assign subprocess_run];
  cbn [fst snd youtube_url output_base_dir video_filename video_dir
       audio_dir frames_dir].

Section ExtractorFacts.
Variable h : Host.

Lemma extract_audio_no_video s w fname :
  video_filename s = None \/ video_filename s = Some "" ->
  extract_audio h fname (s, w) = (Raise (ValueError no_video_msg), (s, w)).
Proof.
  destruct s as [u b [v|] vd ad fd]; cbn [video_filename];
    intros [E|E]; inversion E; subst; reflexivity.
Qed.

Lemma extract_frames_no_video s w pre fmt :
  video_filename s = None \/ video_filename s = Some "" ->
  extract_frames h pre fmt (s, w)
  = (Raise (ValueError no_video_msg), (s, w)).
Proof.
  destruct s as [u b [v|] vd ad fd]; cbn [video_filename];
    intros [E|E]; inversion E; subst; reflexivity.
Qed.

Lemma extract_audio_with_video s w fname v a :
  video_filename s = Some v -> v <> "" -> audio_dir s = Some a ->
  extract_audio h fname (s, w)
  = (decoded "Failed to extract audio"
       (audio_cmd v (os_path_join a fname)) (os_path_join a fname)
       (spawn h w (audio_cmd v (os_path_join a fname))),
     (s, log (EvRun (audio_cmd v (os_path_join a fname))) w)).
Proof.
  destruct s as [u b vf vd ad fd]; cbn [video_filename audio_dir].
  intros -> Hv ->. apply String.eqb_neq in Hv.
  run_method. rewrite Hv. run_method.
  destruct (spawn h w _) as [|[|rc|rc]|]; reflexivity.
Qed.

Lemma extract_frames_with_video s w pre fmt v f :
  video_filename s = Some v -> v <> "" -> frames_dir s = Some f ->
  extract_frames h pre fmt (s, w)
  = (decoded "Failed to extract frames"
       (frames_cmd v (os_path_join f (pre +:+ "%05d." +:+ fmt))) (Some f)
       (spawn h w (frames_cmd v (os_path_join f (pre +:+ "%05d." +:+ fmt)))),
     (s, log (EvRun (frames_cmd v
                       (os_path_join f (pre +:+ "%05d." +:+ fmt)))) w)).
Proof.
  destruct s as [u b vf vd ad fd]; cbn [video_filename frames_dir].
  intros -> Hv ->. apply String.eqb_neq in Hv.
  run_method. rewrite Hv. run_method.
  destruct (spawn h w _) as [|[|rc|rc]|]; reflexivity.
Qed.

Lemma extract_audio_no_dir s w fname v :
  video_filename s = Some v -> v <> "" -> audio_dir s = None ->
  exists m,
    extract_audio h fname (s, w)
    = (Raise (CineNotesException "Failed to extract audio" (TypeError m)),
       (s, w)).
Proof.
  destruct s as [u b vf vd ad fd]; cbn [video_filename audio_dir].
  intros -> Hv ->. apply String.eqb_neq in Hv.
  run_method. rewrite Hv. run_method. eexists. reflexivity.
Qed.

Lemma extract_frames_no_dir s w pre fmt v :
  video_filename s = Some v -> v <> "" -> frames_dir s = None ->
  exists m,
    extract_frames h pre fmt (s, w)
    = (Raise (CineNotesException "Failed to extract frames" (TypeError m)),
       (s, w)).
Proof.
  destruct s as [u b vf vd ad fd]; cbn [video_filename frames_dir].
  intros -> Hv ->. apply String.eqb_neq in Hv.
  run_method. rewrite Hv. run_method. eexists. reflexivity.
Qed.

End ExtractorFacts.

(** ** Running the concrete hosts *)

Example construct_demo :
  __init__ host_ok demo_url "my_videos" empty_world
  = (Return fresh_session, fresh_world).
Proof. reflexivity. Qed.

Example fresh_world_trace :
  trace fresh_world = [EvMakedirs "/work/my_videos" Created].
Proof. reflexivity. Qed.

Example download_demo :
  download_video host_ok (fresh_session, fresh_world)
  = (Return "/work/my_videos/My Clip Test/video.mp4",
     (acquired_session, acquired_world)).
Proof. vm_compute. reflexivity. Qed.

Example acquired_world_events :
  events_since fresh_world acquired_world
  = [EvMakedirs "/work/my_videos/My Clip Test" Created;
     EvPersist "/work/my_videos/My Clip Test/video.mp4";
     EvMakedirs "/work/my_videos/My Clip Test/audio" Created;
     EvMakedirs "/work/my_videos/My Clip Test/frames" Created].
Proof. vm_compute. reflexivity. Qed.

Example acquired_world_dirs :
  dirs acquired_world
  = list_to_set
      ["/work"; "/work/my_videos"; "/work/my_videos/My Clip Test";
       "/work/my_videos/My Clip Test/audio";
       "/work/my_videos/My Clip Test/frames"].
Proof. vm_compute. reflexivity. Qed.

(** ** Paths *)

Lemma os_path_join_relative a b :
  String.prefix "/" b = false -> a <> "" -> endswith_sep a = false ->
  os_path_join a b = a +:+ "/" +:+ b.
Proof.
  intros Hb Ha He. unfold os_path_join. rewrite Hb, He.
  apply String.eqb_neq in Ha. rewrite Ha. reflexivity.
Qed.

Lemma prefix_sep_app c r x :
  String.prefix "/" (String c r) = false ->
  String.prefix "/" (String c r +:+ x) = false.
Proof.
  intros Hp.
  change (String c r +:+ x) with (String c (r +:+ x)).
  cbn [String.prefix] in *.
  destruct (ascii_dec "/" c); [|reflexivity].
  destruct r; discriminate Hp.
Qed.

Example join_audio :
  os_path_join "/work/my_videos/My Clip Test" "audio"
  = "/work/my_videos/My Clip Test/audio".
Proof. reflexivity. Qed.

Example join_absolute : os_path_join "/work/out" "/tmp/a.wav" = "/tmp/a.wav".
Proof. reflexivity. Qed.

Example join_empty_title : os_path_join "/work/out" "" = "/work/out/".
Proof. reflexivity. Qed.

(** ** What an extractor can raise *)

Section ExtractorErrors.
Variable h : Host.

Lemma decoded_raises {A} msg cmd (a : A) l e :
  decoded msg cmd a l = Raise e ->
  e = CineNotesException msg (FileNotFoundError "ffmpeg") /\ l = NotFound
  \/ (exists rc, rc <> 0%Z /\ l = Exited rc
       /\ e = CineNotesException msg (CalledProcessError rc cmd None None))
  \/ e = ValueError nul_msg /\ l = EmbeddedNul.
Proof.
  destruct l as [|[|rc|rc]|]; cbn; intros E; inversion E; subst.
  - left. split; reflexivity.
  - right. left. exists (Z.pos rc). repeat split. discriminate.
  - right. left. exists (Z.neg rc). repeat split. discriminate.
  - right. right. split; reflexivity.
Qed.

(** What leaves an extractor on a session that holds a video: the
    wrapped failure of the decoder or of the path join, or the
    [ValueError] of an argument with a NUL. *)
Lemma extract_audio_raises s w fname v e st :
  video_filename s = Some v -> v <> "" ->
  extract_audio h fname (s, w) = (Raise e, st) ->
  (exists c, e = CineNotesException "Failed to extract audio" c
             /\ captured_output c = None)
  \/ (e = ValueError nul_msg
      /\ exists a, audio_dir s = Some a
                   /\ spawn h w (audio_cmd v (os_path_join a fname))
                      = EmbeddedNul).
Proof.
  intros Ev Hv E. destruct (audio_dir s) as [a|] eqn:Ea.
  - rewrite (extract_audio_with_video h s w fname v a Ev Hv Ea) in E.
    inversion E as [[E1 E2]].
    apply decoded_raises in E1 as [[-> _]|[(rc & _ & _ & ->)|[-> Hn]]].
    + left. eexists; split; reflexivity.
    + left. eexists; split; reflexivity.
    + right. split; [reflexivity|]. exists a. split; [reflexivity|exact Hn].
  - destruct (extract_audio_no_dir h s w fname v Ev Hv Ea) as [m Hm].
    rewrite Hm in E. inversion E; subst.
    left. eexists; split; reflexivity.
Qed.

Lemma extract_frames_raises s w pre fmt v e st :
  video_filename s = Some v -> v <> "" ->
  extract_frames h pre fmt (s, w) = (Raise e, st) ->
  (exists c, e = CineNotesException "Failed to extract frames" c
             /\ captured_output c = None)
  \/ (e = ValueError nul_msg
      /\ exists f, frames_dir s = Some f
                   /\ spawn h w
                        (frames_cmd v
                           (os_path_join f (pre +:+ "%05d." +:+ fmt)))
                      = EmbeddedNul).
Proof.
  intros Ev Hv E. destruct (frames_dir s) as [f|] eqn:Ef.
  - rewrite (extract_frames_with_video h s w pre fmt v f Ev Hv Ef) in E.
    inversion E as [[E1 E2]].
    apply decoded_raises in E1 as [[-> _]|[(rc & _ & _ & ->)|[-> Hn]]].
    + left. eexists; split; reflexivity.
    + left. eexists; split; reflexivity.
    + right. split; [reflexivity|]. exists f. split; [reflexivity|exact Hn].
  - destruct (extract_frames_no_dir h s w pre fmt v Ev Hv Ef) as [m Hm].
    rewrite Hm in E. inversion E; subst.
    left. eexists; split; reflexivity.
Qed.

End ExtractorErrors.

Lemma events_since_log w e : events_since w (log e w) = [e].
Proof. unfold events_since, log; cbn. apply drop_app_length. Qed.

Lemma events_since_same w : events_since w w = [].
Proof. unfold events_since. apply drop_all. Qed.

(** ** Construction *)

Lemma init_returns h url base w0 s w1 :
  __init__ h url base w0 = (Return s, w1) ->
  s = {| youtube_url := url; output_base_dir := os_path_abspath h base;
         video_filename := None; video_dir := None;
         audio_dir := None; frames_dir := None |}.
Proof.
  run_method.
  destruct (os_makedirs h (os_path_abspath h base) w0) as [[[]|e] w'];
    intros E;
    inversion E; reflexivity.
Qed.

(** ** Extraction before acquisition *)

(** On a freshly constructed session, on which no acquisition has
    occurred, [extract_audio] and [extract_frames] raise the
    [ValueError] of the precondition and leave the world as it is: no
    directory, no file, no call to the outside.  What an extractor raises
    once a video is there is a [CineNotesException], which is not a
    [ValueError], or else the [ValueError] that [subprocess.run] raises
    for an argument with a NUL. *)
Lemma extraction_before_acquisition h url base w0 s w1 :
  __init__ h url base w0 = (Return s, w1) ->
  forall w fname pre fmt,
    extract_audio h fname (s, w) = (Raise (ValueError no_video_msg), (s, w))
    /\ extract_frames h pre fmt (s, w)
       = (Raise (ValueError no_video_msg), (s, w))
    /\ (forall s2 w2 v e st,
          video_filename s2 = Some v -> v <> "" ->
          extract_audio h fname (s2, w2) = (Raise e, st)
          \/ extract_frames h pre fmt (s2, w2) = (Raise e, st) ->
          is_ValueError e = false /\ type_name e = "CineNotesException"
          \/ e = ValueError nul_msg).
Proof.
  intros Hinit w fname pre fmt.
  apply init_returns in Hinit.
  assert (Hnone : video_filename s = None) by (subst s; reflexivity).
  split; [|split].
  - apply extract_audio_no_video. left. exact Hnone.
  - apply extract_frames_no_video. left. exact Hnone.
  - intros s2 w2 v e st Ev Hv [E|E].
    + destruct (extract_audio_raises h s2 w2 fname v e st Ev Hv E)
        as [(c & -> & _)|[-> _]]; [left; split; reflexivity | right; reflexivity].
    + destruct (extract_frames_raises h s2 w2 pre fmt v e st Ev Hv E)
        as [(c & -> & _)|[-> _]]; [left; split; reflexivity | right; reflexivity].
Qed.

Lemma extraction_before_acquisition_witness :
  extract_audio host_ok default_audio_filename (fresh_session, fresh_world)
  = (Raise (ValueError no_video_msg), (fresh_session, fresh_world)).
Proof.
  apply (extraction_before_acquisition host_ok demo_url "my_videos"
           empty_world fresh_session fresh_world eq_refl fresh_world
           default_audio_filename default_image_prefix default_image_format).
Defined.

(** C2, at the input where the code breaks it.  On a session that holds
    a video, [extract_audio] with a file name that holds a NUL calls
    [subprocess.run], which raises [ValueError] before anything is
    launched; the clause [except ValueError as ve: raise ve] lets it out
    as it is.  So a failed extraction leaves the method with an exception
    of the class of the error of the missing video, which the same call
    raises on the fresh session, where the docstring of the method
    promises a [CineNotesException]. *)
Theorem unwrapped_value_error_at_nul_name :
  extract_audio host_ok nul_name (acquired_session, acquired_world)
  = (Raise (ValueError nul_msg),
     (acquired_session,
      log (EvRun (audio_cmd "/work/my_videos/My Clip Test/video.mp4"
                    (os_path_join "/work/my_videos/My Clip Test/audio"
                       nul_name)))
        acquired_world))
  /\ extract_audio host_ok nul_name (fresh_session, fresh_world)
     = (Raise (ValueError no_video_msg), (fresh_session, fresh_world))
  /\ type_name (ValueError nul_msg) = type_name (ValueError no_video_msg)
  /\ is_ValueError (ValueError nul_msg) = true.
Proof.
  split; [|split; [|split]]; reflexivity.
Qed.

(** ** The session is read, not written, by the extractors *)

(** C10. [extract_audio] and [extract_frames] never change the session:
    whether the call returns or raises, the six fields are afterwards
    what they were before. *)
Theorem extractors_preserve_session h (s : Session) (w : World)
    (fname pre fmt : string) :
  fst (snd (extract_audio h fname (s, w))) = s
  /\ fst (snd (extract_frames h pre fmt (s, w))) = s.
Proof.
  destruct (video_filename s) as [v|] eqn:Ev.
  - destruct (String.eqb_spec v "") as [->|Hv].
    + rewrite extract_audio_no_video, extract_frames_no_video by tauto.
      split; reflexivity.
    + split.
      * destruct (audio_dir s) as [a|] eqn:Ea.
        -- rewrite (extract_audio_with_video h s w fname v a); auto.
        -- destruct (extract_audio_no_dir h s w fname v Ev Hv Ea) as [m ->].
           reflexivity.
      * destruct (frames_dir s) as [f|] eqn:Ef.
        -- rewrite (extract_frames_with_video h s w pre fmt v f); auto.
        -- destruct (extract_frames_no_dir h s w pre fmt v Ev Hv Ef)
             as [m ->].
           reflexivity.
  - rewrite extract_audio_no_video, extract_frames_no_video by tauto.
    split; reflexivity.
Qed.

(** ** The decoder commands *)

(** C5. On a session that holds an acquired video, [extract_audio] makes
    exactly one call to the outside, the decoder with the arguments
    [-i video -vn -acodec pcm_s16le -ar 44100 -ac 2 audio_path -y], and
    when the decoder exits with status 0 it returns [audio_path], the
    join of the audio directory and the file name; [extract_frames] makes
    exactly one call, the decoder with [-i video frame_pattern -y] where
    [frame_pattern] is the join of the frames directory and
    [prefix%05d.format], and on status 0 it returns the frames directory.
    For a relative name under a directory path without trailing
    separator the join is [directory/name]. *)
Theorem extractor_commands h s w v a f (fname pre fmt : string) :
  video_filename s = Some v -> v <> "" ->
  audio_dir s = Some a -> frames_dir s = Some f ->
  let audio_path := os_path_join a fname in
  let frame_pattern := os_path_join f (pre +:+ "%05d." +:+ fmt) in
  let cmd_audio :=
    ["ffmpeg"; "-i"; v; "-vn"; "-acodec"; "pcm_s16le";
     "-ar"; "44100"; "-ac"; "2"; audio_path; "-y"] in
  let cmd_frames := ["ffmpeg"; "-i"; v; frame_pattern; "-y"] in
  events_since w (snd (snd (extract_audio h fname (s, w))))
  = [EvRun cmd_audio]
  /\ (spawn h w cmd_audio = Exited 0 ->
      fst (extract_audio h fname (s, w)) = Return audio_path)
  /\ events_since w (snd (snd (extract_frames h pre fmt (s, w))))
     = [EvRun cmd_frames]
  /\ (spawn h w cmd_frames = Exited 0 ->
      fst (extract_frames h pre fmt (s, w)) = Return (Some f))
  /\ (String.prefix "/" fname = false -> a <> "" ->
      endswith_sep a = false -> audio_path = a +:+ "/" +:+ fname)
  /\ (String.prefix "/" pre = false -> f <> "" ->
      endswith_sep f = false ->
      frame_pattern = f +:+ "/" +:+ pre +:+ "%05d." +:+ fmt).
Proof.
  intros Ev Hv Ea Ef audio_path frame_pattern cmd_audio cmd_frames.
  rewrite (extract_audio_with_video h s w fname v a Ev Hv Ea).
  rewrite (extract_frames_with_video h s w pre fmt v f Ev Hv Ef).
  cbn [fst snd]. fold audio_path frame_pattern.
  change (audio_cmd v audio_path) with cmd_audio.
  change (frames_cmd v frame_pattern) with cmd_frames.
  repeat split.
  - apply events_since_log.
  - intros ->. reflexivity.
  - apply events_since_log.
  - intros ->. reflexivity.
  - apply os_path_join_relative.
  - intros Hp Hf He. apply os_path_join_relative; try assumption.
    destruct pre as [|c r]; [reflexivity|].
    apply prefix_sep_app. exact Hp.
Qed.

Lemma extractor_commands_witness :
  events_since acquired_world
    (snd (snd (extract_audio host_ok default_audio_filename
                 (acquired_session, acquired_world))))
  = [EvRun ["ffmpeg"; "-i"; "/work/my_videos/My Clip Test/video.mp4";
            "-vn"; "-acodec"; "pcm_s16le"; "-ar"; "44100"; "-ac"; "2";
            "/work/my_videos/My Clip Test/audio/audio.wav"; "-y"]]
  /\ fst (extract_frames host_ok default_image_prefix default_image_format
            (acquired_session, acquired_world))
     = Return (Some "/work/my_videos/My Clip Test/frames").
Proof.
  pose proof (extractor_commands host_ok acquired_session acquired_world
                "/work/my_videos/My Clip Test/video.mp4"
                "/work/my_videos/My Clip Test/audio"
                "/work/my_videos/My Clip Test/frames"
                default_audio_filename default_image_prefix
                default_image_format eq_refl ltac:(discriminate)
                eq_refl eq_refl) as (H1 & _ & _ & H4 & _).
  split; [exact H1 | exact (H4 eq_refl)].
Defined.

(** ** Failures of the decoder *)




(** ** Acquisition: the method and its stages *)

Lemma stream_download_raises stream out name w e w' :
  stream_download stream out name w = (Raise e, w') -> w' = w.
Proof.
  unfold stream_download. destruct stream as [st|].
  - destruct (download st w out name); intros E; inversion E; reflexivity.
  - intros E; inversion E; reflexivity.
Qed.

Lemma stream_download_returns stream out name w file w' :
  stream_download stream out name w = (Return file, w') ->
  w' = persist file w.
Proof.
  unfold stream_download. destruct stream as [st|].
  - destruct (download st w out name); intros E; inversion E; reflexivity.
  - intros E; inversion E.
Qed.

(** Every run of [download_video] is one of the six stages. *)
Lemma download_video_acquisition h s w r s' w' :
  download_video h (s, w) = (r, (s', w')) -> acquisition h s w r s' w'.
Proof.
  run_method.
  pose proof (eq_refl (resolve h w (youtube_url s))) as Hres.
  unfold resolve at 2 in Hres.
  destruct (YouTube h w (youtube_url s)) as [yt|e]; cbn [fst snd];
    [|intros E; inversion E; subst; apply Acq_unresolved; exact Hres].
  destruct (streams_get_highest_resolution yt) as [stream|e]; cbn [fst snd];
    [|intros E; inversion E; subst; apply Acq_unresolved; exact Hres].
  destruct (title yt) as [t|e]; cbn [fst snd];
    [|intros E; inversion E; subst; apply Acq_unresolved; exact Hres].
  destruct (os_makedirs h _ w) as [[[]|e] w1] eqn:Hv; cbn [fst snd];
    [|intros E; inversion E; subst; eapply Acq_no_video_dir; eassumption].
  destruct (stream_download stream _ "video.mp4" w1) as [[file|e] w2] eqn:Hd;
    cbn [fst snd];
    [|intros E; inversion E; subst;
      pose proof (stream_download_raises _ _ _ _ _ _ Hd); subst;
      eapply Acq_not_downloaded; eassumption].
  destruct (os_makedirs h _ w2) as [[[]|e] w3] eqn:Ha; cbn [fst snd];
    [|intros E; inversion E; subst; eapply Acq_no_audio_dir; eassumption].
  destruct (os_makedirs h _ w3) as [[[]|e] w4] eqn:Hf; cbn [fst snd];
    intros E; inversion E; subst.
  - eapply Acq_done; eassumption.
  - eapply Acq_no_frames_dir; eassumption.
Qed.

(** The stages are exactly the runs of the method. *)
Lemma acquisition_download_video h s w r s' w' :
  acquisition h s w r s' w' -> download_video h (s, w) = (r, (s', w')).
Proof.
  intros H; destruct H;
    match goal with H : resolve _ _ _ = _ |- _ => unfold resolve in H end;
    run_method;
    destruct (YouTube h w (youtube_url s)) as [yt|?]; try discriminate;
    try (destruct (streams_get_highest_resolution yt) as [?|?];
         try discriminate;
         destruct (title yt) as [?|?]; try discriminate);
    cbn [fst snd];
    try (match goal with H : Raise _ = Raise _ |- _ => inversion H end;
         reflexivity);
    match goal with H : Return _ = Return _ |- _ => inversion H; subst end;
    repeat match goal with
           | H : os_makedirs _ _ _ = _ |- _ => rewrite H; clear H; cbn [fst snd]
           | H : stream_download _ _ _ _ = _ |- _ =>
               rewrite H; clear H; cbn [fst snd]
           end;
    reflexivity.
Qed.

(** ** Creating directories *)

Lemma append_length a b :
  String.length (a +:+ b) = String.length a + String.length b.
Proof.
  induction a as [|c a IH]; [reflexivity|].
  change (String c a +:+ b) with (String c (a +:+ b)).
  cbn [String.length]. rewrite IH. reflexivity.
Qed.

Lemma ancestors_from_shorter pre rest q :
  In q (ancestors_from pre rest) ->
  String.length q < String.length pre + String.length rest.
Proof.
  revert pre. induction rest as [|c r IH]; intros pre; cbn [ancestors_from].
  - intros [].
  - intros H. apply in_app_or in H as [H|H].
    + destruct (Ascii.eqb c "/" && negb (String.eqb pre "")); [|destruct H].
      destruct H as [<-|[]]. cbn [String.length]. lia.
    + apply IH in H. rewrite append_length in H.
      cbn [String.length] in H |- *. lia.
Qed.

(** An ancestor of a path is another path. *)
Lemma ancestors_proper p q : In q (ancestors p) -> q <> p.
Proof.
  intros H ->. apply ancestors_from_shorter in H.
  cbn [String.length] in H. lia.
Qed.

Lemma make_ancestors_spec h qs w f w1 :
  make_ancestors h qs w = (f, w1) ->
  trace w1 = trace w /\ files w1 = files w /\ dirs w ⊆ dirs w1
  /\ (forall x, x ∈ dirs w1 -> x ∈ dirs w \/ In x qs).
Proof.
  revert w. induction qs as [|q r IH]; intros w; cbn [make_ancestors].
  - intros E; inversion E; subst. repeat split; auto.
  - destruct (bool_decide (q ∈ dirs w) || known_dir w q).
    + intros E. apply IH in E as (Ht & Hf & Hd & Hx).
      repeat split; auto. intros x Hin. destruct (Hx x Hin); auto.
      right. right. assumption.
    + destruct (bool_decide (q ∈ files w) || mkdir_refused h w q).
      * intros E; inversion E; subst. repeat split; auto.
      * intros E. apply IH in E as (Ht & Hf & Hd & Hx).
        cbn [trace files dirs add_dir] in *.
        repeat split; auto.
        -- etransitivity; [apply union_subseteq_r | exact Hd].
        -- intros x Hin. destruct (Hx x Hin) as [H|H].
           ++ apply elem_of_union in H as [H|H]; [|auto].
              apply elem_of_singleton in H. subst. right. left. reflexivity.
           ++ right. right. exact H.
Qed.

Lemma os_makedirs_spec h p w r w' :
  os_makedirs h p w = (r, w') ->
  exists o,
    trace w' = trace w ++ [EvMakedirs p o]
    /\ files w' = files w
    /\ dirs w ⊆ dirs w'
    /\ match r with
       | Return _ => o <> Failed /\ p ∈ dirs w'
       | Raise _ => o = Failed /\ p ∉ dirs w'
       end.
Proof.
  unfold os_makedirs.
  destruct (decide (p ∈ dirs w)) as [Hin|Hout].
  - intros E; inversion E; subst. exists Existed. cbn.
    repeat split; [reflexivity | discriminate | exact Hin].
  - destruct (known_dir w p).
    + intros E; inversion E; subst. exists Existed. cbn.
      repeat split;
        [ apply union_subseteq_r | discriminate
        | apply elem_of_union_l, elem_of_singleton; reflexivity ].
    + destruct (has_nul p);
        [intros E; inversion E; subst; exists Failed; cbn;
         repeat split; [reflexivity | exact Hout] |].
      destruct (make_ancestors h (ancestors p) w) as [[q|] w1] eqn:Em;
        apply make_ancestors_spec in Em as (Ht & Hf & Hd & Hx);
        assert (Hp : p ∉ dirs w1)
          by (intros Hin; destruct (Hx p Hin) as [H|H];
              [contradiction | exact (ancestors_proper p p H eq_refl)]).
      * intros E; inversion E; subst. exists Failed. cbn.
        rewrite Ht, Hf. repeat split; assumption.
      * destruct (decide (p ∈ files w1)) as [Hfi|Hfi].
        -- intros E; inversion E; subst. exists Failed. cbn.
           rewrite Ht, Hf. repeat split; assumption.
        -- destruct (mkdir_refused h w1 p).
           ++ intros E; inversion E; subst. exists Failed. cbn.
              rewrite Ht, Hf. repeat split; assumption.
           ++ intros E; inversion E; subst. exists Created. cbn.
              rewrite Ht, Hf. repeat split.
              ** etransitivity; [exact Hd | apply union_subseteq_r].
              ** discriminate.
              ** apply elem_of_union_l, elem_of_singleton. reflexivity.
Qed.

Example path_key_normal :
  path_key "/work//my_videos/./x/../" = (true, ["work"; "my_videos"]).
Proof. reflexivity. Qed.

Example same_dir_trailing_sep :
  same_dir "/work/my_videos/" "/work/my_videos" = true.
Proof. reflexivity. Qed.

(** The base directory under another name is found there. *)
Example makedirs_other_name :
  os_makedirs host_ok "/work/my_videos/" fresh_world
  = (Return tt,
     log (EvMakedirs "/work/my_videos/" Existed)
       (add_dir "/work/my_videos/" fresh_world)).
Proof. vm_compute. reflexivity. Qed.

(** A failed creation keeps the ancestors it has made. *)
Example makedirs_partial :
  fst (__init__ host_no_base demo_url "my_videos" empty_world)
  = Raise (CineNotesException "Failed to initialize YouTubeVideoProcessor"
             (OSError "/work/my_videos"))
  /\ dirs (snd (__init__ host_no_base demo_url "my_videos" empty_world))
     = {["/work"]}.
Proof. split; vm_compute; reflexivity. Qed.

Example untitled_events :
  events_since fresh_world
    (snd (snd (download_video host_untitled (fresh_session, fresh_world))))
  = [EvMakedirs "/work/my_videos/" Existed;
     EvPersist "/work/my_videos/video.mp4";
     EvMakedirs "/work/my_videos/audio" Created;
     EvMakedirs "/work/my_videos/frames" Created].
Proof. vm_compute. reflexivity. Qed.

Example spawn_nul_name :
  spawn host_ok acquired_world
    (audio_cmd "/work/my_videos/My Clip Test/video.mp4"
       (os_path_join "/work/my_videos/My Clip Test/audio" nul_name))
  = EmbeddedNul.
Proof. reflexivity. Qed.

Lemma os_makedirs_existing h p w :
  p ∈ dirs w -> os_makedirs h p w = (Return tt, log (EvMakedirs p Existed) w).
Proof.
  intros Hin. unfold os_makedirs.
  destruct (decide (p ∈ dirs w)); [reflexivity | contradiction].
Qed.

Lemma events_since_app w w' l :
  trace w' = trace w ++ l -> events_since w w' = l.
Proof. intros E. unfold events_since. rewrite E. apply drop_app_length. Qed.

(** What each stage has recorded and created. *)
Ltac stage_facts :=
  repeat match goal with
    | H : os_makedirs _ _ _ = _ |- _ =>
        let o := fresh "o" in
        let Ht := fresh "Ht" in let Hf := fresh "Hf" in
        let Hd := fresh "Hd" in let Ho := fresh "Ho" in
        apply os_makedirs_spec in H as (o & Ht & Hf & Hd & Ho);
        cbn beta iota in Ho
    | H : stream_download _ _ _ _ = (Return _, _) |- _ =>
        apply stream_download_returns in H; subst
    | H : stream_download _ _ _ _ = (Raise _, _) |- _ => clear H
    end.

Ltac trace_chain :=
  repeat (cbn [trace persist];
          match goal with
          | H : trace ?x = _ |- context [trace ?x] => rewrite H; clear H
          end);
  cbn [trace persist firstn take]; rewrite <- ?app_assoc; reflexivity.

Ltac dirs_chain :=
  cbn [dirs persist] in *;
  repeat match goal with
         | H : _ /\ _ |- _ => destruct H
         end;
  repeat match goal with
         | H : dirs ?x = _ |- context [dirs ?x] => rewrite H
         end;
  repeat first
    [ assumption
    | match goal with
      | H : ?a ⊆ ?b |- _ ∈ ?b => apply (elem_of_weaken _ a b); [|exact H]
      end ].

Lemma acquisition_summary h s w r s' w' :
  acquisition h s w r s' w' ->
  exists vdir file o1 o2 o3 n,
    events_since w w'
    = take n [EvMakedirs vdir o1; EvPersist file;
              EvMakedirs (os_path_join vdir "audio") o2;
              EvMakedirs (os_path_join vdir "frames") o3]
    /\ s' = session_after n vdir file s
    /\ (n = 0 -> w' = w)
    /\ (1 <= n -> o1 <> Failed -> vdir ∈ dirs w')
    /\ match r with
       | Return p => p = file /\ n = 4
                     /\ o1 <> Failed /\ o2 <> Failed /\ o3 <> Failed
       | Raise e =>
           exists c, e = CineNotesException download_failed c
           /\ (n = 0 \/ n = 1 \/ n = 3 /\ o2 = Failed \/ n = 4 /\ o3 = Failed)
       end.
Proof.
  intros H; destruct H; stage_facts.
  - exists "", "", Failed, Failed, Failed, 0.
    rewrite events_since_same.
    repeat split; try reflexivity; try lia. eexists; split; eauto.
  - eexists _, "", _, Failed, Failed, 1.
    split; [apply events_since_app; trace_chain|].
    repeat split; try reflexivity; try lia.
    + intros _ Hne. tauto.
    + eexists; split; eauto.
  - eexists _, "", _, Failed, Failed, 1.
    split; [apply events_since_app; trace_chain|].
    repeat split; try reflexivity; try lia.
    + intros _ _. tauto.
    + eexists; split; eauto.
  - eexists _, file, _, _, Failed, 3.
    split; [apply events_since_app; trace_chain|].
    repeat split; try reflexivity; try lia.
    + intros _ _. dirs_chain.
    + eexists; split; [reflexivity|]. tauto.
  - eexists _, file, _, _, _, 4.
    split; [apply events_since_app; trace_chain|].
    repeat split; try reflexivity; try lia.
    + intros _ _. dirs_chain.
    + eexists; split; [reflexivity|]. tauto.
  - eexists _, file, _, _, _, 4.
    split; [apply events_since_app; trace_chain|].
    repeat split; try reflexivity; try lia; try tauto.
    intros _ _. dirs_chain.
Qed.

(** The world after an extractor: at most the decoder has been run. *)
Lemma extract_audio_world h s w fname :
  let w' := snd (snd (extract_audio h fname (s, w))) in
  dirs w' = dirs w /\ files w' = files w
  /\ (events_since w w' = [] \/ exists cmd, events_since w w' = [EvRun cmd]).
Proof.
  cbv zeta.
  destruct (video_filename s) as [v|] eqn:Ev.
  - destruct (String.eqb_spec v "") as [->|Hv].
    + rewrite extract_audio_no_video by tauto. cbn [fst snd].
      rewrite events_since_same. tauto.
    + destruct (audio_dir s) as [a|] eqn:Ea.
      * rewrite (extract_audio_with_video h s w fname v a Ev Hv Ea).
        cbn [fst snd]. rewrite events_since_log. eauto.
      * destruct (extract_audio_no_dir h s w fname v Ev Hv Ea) as [m ->].
        cbn [fst snd]. rewrite events_since_same. tauto.
  - rewrite extract_audio_no_video by tauto. cbn [fst snd].
    rewrite events_since_same. tauto.
Qed.

Lemma extract_frames_world h s w pre fmt :
  let w' := snd (snd (extract_frames h pre fmt (s, w))) in
  dirs w' = dirs w /\ files w' = files w
  /\ (events_since w w' = [] \/ exists cmd, events_since w w' = [EvRun cmd]).
Proof.
  cbv zeta.
  destruct (video_filename s) as [v|] eqn:Ev.
  - destruct (String.eqb_spec v "") as [->|Hv].
    + rewrite extract_frames_no_video by tauto. cbn [fst snd].
      rewrite events_since_same. tauto.
    + destruct (frames_dir s) as [f|] eqn:Ef.
      * rewrite (extract_frames_with_video h s w pre fmt v f Ev Hv Ef).
        cbn [fst snd]. rewrite events_since_log. eauto.
      * destruct (extract_frames_no_dir h s w pre fmt v Ev Hv Ef) as [m ->].
        cbn [fst snd]. rewrite events_since_same. tauto.
  - rewrite extract_frames_no_video by tauto. cbn [fst snd].
    rewrite events_since_same. tauto.
Qed.

(** ** When the directories are created *)

(** C3, as the code has it.  In every run of [download_video] the calls
    that reach outside are, in this order and each at most once: the
    creation of the video directory, the download that persists the video
    file, the creation of the audio directory, the creation of the frames
    directory; a run that returns has made all four.  So the video
    directory is created before the download, the audio and the frames
    directories together right after it, and the extractors create no
    directory. *)
Theorem directories_created_around_download h (s : Session) (w : World) :
  (exists vdir file o1 o2 o3 n,
     events_since w (snd (snd (download_video h (s, w))))
     = take n [EvMakedirs vdir o1; EvPersist file;
               EvMakedirs (os_path_join vdir "audio") o2;
               EvMakedirs (os_path_join vdir "frames") o3]
     /\ match fst (download_video h (s, w)) with
        | Return p =>
            p = file /\ n = 4
            /\ o1 <> Failed /\ o2 <> Failed /\ o3 <> Failed
            /\ fst (snd (download_video h (s, w))) = with_video vdir file s
        | Raise _ =>
            n = 0 \/ n = 1 \/ n = 3 /\ o2 = Failed \/ n = 4 /\ o3 = Failed
        end)
  /\ (forall fname d o,
        ~ In (EvMakedirs d o)
            (events_since w (snd (snd (extract_audio h fname (s, w)))))
        /\ dirs (snd (snd (extract_audio h fname (s, w)))) = dirs w)
  /\ (forall pre fmt d o,
        ~ In (EvMakedirs d o)
            (events_since w (snd (snd (extract_frames h pre fmt (s, w)))))
        /\ dirs (snd (snd (extract_frames h pre fmt (s, w)))) = dirs w).
Proof.
  split; [|split].
  - destruct (download_video h (s, w)) as [r [s' w']] eqn:E.
    cbn [fst snd].
    destruct (acquisition_summary h s w r s' w'
                (download_video_acquisition h s w r s' w' E))
      as (vdir & file & o1 & o2 & o3 & n & Hev & Hs & _ & _ & Hr).
    exists vdir, file, o1, o2, o3, n. split; [exact Hev|].
    destruct r as [p|e].
    + destruct Hr as (-> & -> & ? & ? & ?). subst s'. cbn. tauto.
    + destruct Hr as (c & _ & Hn). exact Hn.
  - intros fname d o.
    destruct (extract_audio_world h s w fname) as (Hd & _ & [->|[c ->]]);
      (split; [|exact Hd]); cbn; intuition discriminate.
  - intros pre fmt d o.
    destruct (extract_frames_world h s w pre fmt) as (Hd & _ & [->|[c ->]]);
      (split; [|exact Hd]); cbn; intuition discriminate.
Qed.

(** C3, as stated, fails: in the run of [download_video] on a fresh
    session whose title resolves to [My Clip: Test!], the video directory
    is created before the video file is persisted; and when the download
    breaks off, the video directory has been created although no video
    was ever persisted. *)
Lemma video_directory_precedes_download :
  events_since fresh_world
    (snd (snd (download_video host_ok (fresh_session, fresh_world))))
  = [EvMakedirs "/work/my_videos/My Clip Test" Created;
     EvPersist "/work/my_videos/My Clip Test/video.mp4";
     EvMakedirs "/work/my_videos/My Clip Test/audio" Created;
     EvMakedirs "/work/my_videos/My Clip Test/frames" Created]
  /\ events_since fresh_world
       (snd (snd (download_video host_broken_download
                    (fresh_session, fresh_world))))
     = [EvMakedirs "/work/my_videos/My Clip Test" Created]
  /\ ("/work/my_videos/My Clip Test" ∉ dirs fresh_world)
  /\ ("/work/my_videos/My Clip Test"
       ∈ dirs (snd (snd (download_video host_broken_download
                           (fresh_session, fresh_world))))).
Proof.
  split; [|split; [|split]].
  - vm_compute. reflexivity.
  - vm_compute. reflexivity.
  - apply (bool_decide_unpack _). vm_compute. exact I.
  - apply (bool_decide_unpack _). vm_compute. exact I.
Qed.

(** ** When the video file path is set *)

(** C1, as the code has it.  The video file path is [None] after
    construction.  After a run of [download_video] on a session where it
    was [None], it is set exactly when the run has persisted the video
    file, and then to the path the download returned; in particular it is
    set whenever the run returns, and it is still [None] when the run
    fails before the download has returned. *)
Theorem video_filename_set_when_persisted h (s : Session) (w : World) :
  video_filename s = None ->
  (forall p,
     video_filename (fst (snd (download_video h (s, w)))) = Some p
     <-> In (EvPersist p)
            (events_since w (snd (snd (download_video h (s, w))))))
  /\ (forall p,
        fst (download_video h (s, w)) = Return p ->
        video_filename (fst (snd (download_video h (s, w)))) = Some p)
  /\ (forall url base w0 s0 w1,
        __init__ h url base w0 = (Return s0, w1) ->
        video_filename s0 = None).
Proof.
  intros Hnone.
  destruct (download_video h (s, w)) as [r [s' w']] eqn:E. cbn [fst snd].
  destruct (acquisition_summary h s w r s' w'
              (download_video_acquisition h s w r s' w' E))
    as (vdir & file & o1 & o2 & o3 & n & Hev & Hs & _ & _ & Hr).
  assert (Hn : n = 0 \/ n = 1 \/ n = 3 \/ n = 4).
  { destruct r as [p|e]; [lia|]. destruct Hr as (c & _ & Hn). lia. }
  split; [|split].
  - intros p. rewrite Hev, Hs.
    destruct Hn as [-> | [-> | [-> | ->]]]; cbn; rewrite ?Hnone;
      split; intros H;
      repeat match goal with
             | H : _ \/ _ |- _ => destruct H
             | H : False |- _ => destruct H
             | H : Some _ = Some _ |- _ => inversion H; subst; clear H
             | H : EvPersist _ = EvPersist _ |- _ =>
                 inversion H; subst; clear H
             end;
      try discriminate; try reflexivity; auto.
  - intros p Hp. subst r. destruct Hr as (-> & -> & _). subst s'.
    reflexivity.
  - intros url base w0 s0 w1 Hi. apply init_returns in Hi. subst s0.
    reflexivity.
Qed.

Lemma video_filename_set_when_persisted_witness :
  video_filename
    (fst (snd (download_video host_ok (fresh_session, fresh_world))))
  = Some "/work/my_videos/My Clip Test/video.mp4".
Proof.
  apply (video_filename_set_when_persisted host_ok fresh_session
           fresh_world eq_refl).
  vm_compute. reflexivity.
Defined.

(** C1, as stated, fails: when the audio directory cannot be created,
    [download_video] raises although the video has been downloaded, and
    the video file path is set. *)
Lemma video_filename_set_on_failed_acquisition :
  fst (download_video host_no_audio_dir (fresh_session, fresh_world))
  = Raise (CineNotesException download_failed
             (OSError "/work/my_videos/My Clip Test/audio"))
  /\ video_filename
       (fst (snd (download_video host_no_audio_dir
                    (fresh_session, fresh_world))))
     = Some "/work/my_videos/My Clip Test/video.mp4".
Proof. split; vm_compute; reflexivity. Qed.

(** ** Failed acquisition *)

(** C4, as the code has it.  Whatever fails in [download_video], the
    method raises a [CineNotesException] with the message of the
    download.  When the URL does not resolve, the session and the world
    are left as they were: no path is set and no directory is created.
    When the URL resolves and a later step fails, the video directory has
    been assigned to the session and its creation has been attempted, so
    it exists unless that creation failed; the video file path is
    unchanged as long as no video file was persisted. *)
Theorem failed_acquisition_effects h (s : Session) (w : World) (e : exn) :
  fst (download_video h (s, w)) = Raise e ->
  (exists c, e = CineNotesException download_failed c)
  /\ (forall c,
        resolve h w (youtube_url s) = Raise c ->
        e = CineNotesException download_failed c
        /\ snd (download_video h (s, w)) = (s, w))
  /\ ((forall p, ~ In (EvPersist p)
                   (events_since w (snd (snd (download_video h (s, w)))))) ->
      video_filename (fst (snd (download_video h (s, w))))
      = video_filename s)
  /\ (forall stream t,
        resolve h w (youtube_url s) = Return (stream, t) ->
        video_dir (fst (snd (download_video h (s, w))))
        = Some (os_path_join (output_base_dir s) (_sanitize_filename t))
        /\ exists o,
            head (events_since w (snd (snd (download_video h (s, w)))))
            = Some (EvMakedirs
                      (os_path_join (output_base_dir s)
                         (_sanitize_filename t)) o)
            /\ (o <> Failed ->
                os_path_join (output_base_dir s) (_sanitize_filename t)
                ∈ dirs (snd (snd (download_video h (s, w)))))).
Proof.
  destruct (download_video h (s, w)) as [r [s' w']] eqn:E. cbn [fst snd].
  intros ->. apply download_video_acquisition in E.
  inversion E; subst; clear E.
  - split; [eauto|]. split; [|split; [reflexivity | congruence]].
    intros c Hc. split; [congruence | reflexivity].
  - split; [eauto|]. split; [congruence|]. split; [reflexivity|].
    intros stream0 t0 Hres. rewrite Hres in H0. inversion H0; subst.
    split; [reflexivity|]. stage_facts. exists o.
    rewrite (events_since_app w w' _ Ht). split; [reflexivity|]. tauto.
  - split; [eauto|]. split; [congruence|]. split; [reflexivity|].
    intros stream0 t0 Hres. rewrite Hres in H0. inversion H0; subst.
    split; [reflexivity|]. stage_facts. exists o.
    rewrite (events_since_app w w' _ Ht). split; [reflexivity|]. tauto.
  - split; [eauto|]. split; [congruence|].
    assert (Hev : exists o l,
               events_since w w'
               = EvMakedirs (os_path_join (output_base_dir s)
                               (_sanitize_filename t)) o
                   :: EvPersist file :: l
               /\ os_path_join (output_base_dir s) (_sanitize_filename t)
                  ∈ dirs w').
    { stage_facts. do 2 eexists.
      split; [apply events_since_app; trace_chain | dirs_chain]. }
    destruct Hev as (o & l & Hev & Hin). rewrite Hev. split.
    + intros Hno. exfalso. apply (Hno file). right. left. reflexivity.
    + intros stream0 t0 Hres. rewrite Hres in H0. inversion H0; subst.
      split; [reflexivity|]. exists o. split; [reflexivity|]. auto.
  - split; [eauto|]. split; [congruence|].
    assert (Hev : exists o l,
               events_since w w'
               = EvMakedirs (os_path_join (output_base_dir s)
                               (_sanitize_filename t)) o
                   :: EvPersist file :: l
               /\ os_path_join (output_base_dir s) (_sanitize_filename t)
                  ∈ dirs w').
    { stage_facts. do 2 eexists.
      split; [apply events_since_app; trace_chain | dirs_chain]. }
    destruct Hev as (o & l & Hev & Hin). rewrite Hev. split.
    + intros Hno. exfalso. apply (Hno file). right. left. reflexivity.
    + intros stream0 t0 Hres. rewrite Hres in H0. inversion H0; subst.
      split; [reflexivity|]. exists o. split; [reflexivity|]. auto.
Qed.

Lemma failed_acquisition_effects_witness :
  snd (download_video host_unreachable (fresh_session, fresh_world))
  = (fresh_session, fresh_world).
Proof.
  pose proof (failed_acquisition_effects host_unreachable fresh_session
                fresh_world
                (CineNotesException download_failed
                   (ProviderError "VideoUnavailable"))
                eq_refl) as (_ & H & _).
  exact (proj2 (H (ProviderError "VideoUnavailable") eq_refl)).
Defined.

(** C4, as stated, fails: when the download breaks off, [download_video]
    raises, but the session is not what it was, its video directory is
    set, and that directory, which was not there before, has been
    created. *)
Lemma broken_download_leaves_directory :
  fst (download_video host_broken_download (fresh_session, fresh_world))
  = Raise (CineNotesException download_failed
             (ProviderError "IncompleteRead"))
  /\ fst (snd (download_video host_broken_download
                 (fresh_session, fresh_world)))
     = with_video_dir "/work/my_videos/My Clip Test" fresh_session
  /\ ("/work/my_videos/My Clip Test" ∉ dirs fresh_world)
  /\ ("/work/my_videos/My Clip Test"
      ∈ dirs (snd (snd (download_video host_broken_download
                          (fresh_session, fresh_world))))).
Proof.
  split; [|split; [|split]].
  - vm_compute. reflexivity.
  - vm_compute. reflexivity.
  - apply (bool_decide_unpack _). vm_compute. exact I.
  - apply (bool_decide_unpack _). vm_compute. exact I.
Qed.

(** ** Creating the layout again *)

Lemma os_makedirs_again h p w r w' :
  p ∈ dirs w -> os_makedirs h p w = (r, w') ->
  r = Return tt /\ w' = log (EvMakedirs p Existed) w.
Proof.
  intros Hin E. rewrite (os_makedirs_existing h p w Hin) in E.
  inversion E. split; reflexivity.
Qed.

Lemma init_makedirs h url base w0 s w1 :
  __init__ h url base w0 = (Return s, w1) ->
  os_makedirs h (os_path_abspath h base) w0 = (Return tt, w1).
Proof.
  run_method.
  destruct (os_makedirs h (os_path_abspath h base) w0) as [[[]|e] w'];
    intros E; inversion E; reflexivity.
Qed.

Lemma acquired_dirs h s w p s' w' :
  download_video h (s, w) = (Return p, (s', w')) ->
  exists vdir,
    s' = with_video vdir p s
    /\ vdir ∈ dirs w'
    /\ os_path_join vdir "audio" ∈ dirs w'
    /\ os_path_join vdir "frames" ∈ dirs w'
    /\ dirs w ⊆ dirs w'.
Proof.
  intros E. apply download_video_acquisition in E.
  inversion E; subst; clear E. stage_facts.
  eexists. split; [reflexivity|].
  repeat split; try dirs_chain.
  cbn [dirs persist] in *. etransitivity; [eassumption|].
  etransitivity; eassumption.
Qed.

(** The fields an extractor reads are set together: every session that
    construction and the methods can produce is consistent. *)
Lemma init_consistent h url base w0 s w1 :
  __init__ h url base w0 = (Return s, w1) -> consistent s.
Proof.
  intros Hi. apply init_returns in Hi. subst s.
  intros Hv. cbn in Hv. congruence.
Qed.

Lemma download_video_consistent h s w :
  consistent s -> consistent (fst (snd (download_video h (s, w)))).
Proof.
  intros Hc.
  destruct (download_video h (s, w)) as [r [s' w']] eqn:E. cbn [fst snd].
  destruct (acquisition_summary h s w r s' w'
              (download_video_acquisition h s w r s' w' E))
    as (vdir & file & o1 & o2 & o3 & n & _ & -> & _).
  destruct n as [|[|[|n]]]; cbn; try exact Hc.
  intros _. split; discriminate.
Qed.

Lemma rerun_on_existing h s w vdir r s' w' :
  vdir ∈ dirs w ->
  os_path_join vdir "audio" ∈ dirs w ->
  os_path_join vdir "frames" ∈ dirs w ->
  video_dir s = None ->
  download_video h (s, w) = (r, (s', w')) ->
  video_dir s' = Some vdir ->
  dirs w' = dirs w
  /\ (forall d o, In (EvMakedirs d o) (events_since w w') -> o = Existed)
  /\ (forall e, r = Raise e ->
      forall p, ~ In (EvPersist p) (events_since w w')).
Proof.
  intros Hv Ha Hf Hnone E Hvd.
  apply download_video_acquisition in E.
  inversion E; subst; clear E; cbn in Hvd;
    try congruence; inversion Hvd as [Heq]; rewrite Heq in *;
    repeat match goal with
      | H : os_makedirs _ _ _ = _ |- _ =>
          apply os_makedirs_again in H as [? ?];
          [subst | cbn [dirs log persist]; assumption]
      | H : stream_download _ _ _ _ = (Return _, _) |- _ =>
          apply stream_download_returns in H; subst
      end;
    try discriminate.
  - rewrite events_since_log. cbn. repeat split.
    + intros d o [Hd|[]]. inversion Hd. reflexivity.
    + intros e' _ p [Hd|[]]. discriminate.
  - split; [reflexivity|]. split.
    + intros d o Hin.
      erewrite events_since_app in Hin
        by (cbn [trace log persist]; rewrite <- !app_assoc; reflexivity).
      cbn [In app] in Hin.
      repeat match goal with
             | H : _ \/ _ |- _ => destruct H
             | H : False |- _ => destruct H
             | H : EvMakedirs _ _ = EvMakedirs _ _ |- _ =>
                 inversion H; subst; clear H
             end; try discriminate; reflexivity.
    + intros e' He. discriminate.
Qed.

(** C9. When a session has been constructed and has acquired its video,
    constructing a session again with the same root and acquiring a video
    whose title gives the same video directory raises no error in any
    directory creation: the construction returns, every [os.makedirs]
    call of the second round finds its directory there, a failure of the
    second round can only come from the provider before the video is
    persisted, and the set of directories after the second round is the
    set before it. *)
Theorem layout_creation_idempotent h url base w0 s1 w1 p1 s1' w2 :
  __init__ h url base w0 = (Return s1, w1) ->
  download_video h (s1, w1) = (Return p1, (s1', w2)) ->
  forall (url2 : string) (w2' : World),
    dirs w2 ⊆ dirs w2' ->
    let s2 := {| youtube_url := url2; output_base_dir := output_base_dir s1;
                 video_filename := None; video_dir := None;
                 audio_dir := None; frames_dir := None |} in
    let w3 := log (EvMakedirs (output_base_dir s1) Existed) w2' in
    __init__ h url2 base w2' = (Return s2, w3)
    /\ dirs w3 = dirs w2'
    /\ (video_dir (fst (snd (download_video h (s2, w3)))) = video_dir s1' ->
        dirs (snd (snd (download_video h (s2, w3)))) = dirs w2'
        /\ (forall d o,
              In (EvMakedirs d o)
                 (events_since w3
                    (snd (snd (download_video h (s2, w3))))) ->
              o = Existed)
        /\ (forall e,
              fst (download_video h (s2, w3)) = Raise e ->
              forall p,
                ~ In (EvPersist p)
                    (events_since w3
                       (snd (snd (download_video h (s2, w3))))))).
Proof.
  intros Hinit Hrun url2 w2' Hsub s2 w3.
  pose proof (init_returns _ _ _ _ _ _ Hinit) as Hs1.
  pose proof (init_makedirs _ _ _ _ _ _ Hinit) as Hmk.
  apply os_makedirs_spec in Hmk as (o & _ & _ & _ & _ & Hroot).
  destruct (acquired_dirs _ _ _ _ _ _ Hrun)
    as (vdir & Hs1' & Hv & Ha & Hf & Hsub1).
  assert (Hbase : output_base_dir s1 = os_path_abspath h base).
  { rewrite Hs1. reflexivity. }
  assert (Hroot' : os_path_abspath h base ∈ dirs w2').
  { apply Hsub, Hsub1, Hroot. }
  split; [|split].
  - unfold s2, w3. rewrite Hbase. run_method.
    rewrite (os_makedirs_existing h _ w2' Hroot'). reflexivity.
  - reflexivity.
  - intros Hvd.
    destruct (download_video h (s2, w3)) as [r [s2' w4]] eqn:E.
    cbn [fst snd] in *.
    assert (Hvd' : video_dir s2' = Some vdir).
    { rewrite Hvd, Hs1'. reflexivity. }
    destruct (rerun_on_existing h s2 w3 vdir r s2' w4) as (Hd & He & Hp).
    + apply Hsub, Hv.
    + apply Hsub, Ha.
    + apply Hsub, Hf.
    + reflexivity.
    + exact E.
    + exact Hvd'.
    + split; [exact Hd | split; [exact He|]].
      intros e ->. apply (Hp e eq_refl).
Qed.

Lemma layout_creation_idempotent_witness :
  __init__ host_ok demo_url "my_videos" acquired_world
  = (Return fresh_session,
     log (EvMakedirs "/work/my_videos" Existed) acquired_world)
  /\ dirs (snd (snd (download_video host_ok
                       (fresh_session,
                        log (EvMakedirs "/work/my_videos" Existed)
                          acquired_world))))
     = dirs acquired_world.
Proof.
  assert (Hrun : download_video host_ok (fresh_session, fresh_world)
                 = (Return "/work/my_videos/My Clip Test/video.mp4",
                    (acquired_session, acquired_world))).
  { vm_compute. reflexivity. }
  pose proof (layout_creation_idempotent host_ok demo_url "my_videos"
                empty_world fresh_session fresh_world _ _ _ eq_refl Hrun
                demo_url acquired_world (reflexivity _)) as H.
  cbv zeta in H. destruct H as (Hi & _ & Hre).
  split; [exact Hi|]. apply Hre. vm_compute. reflexivity.
Defined.

(** * Further properties of the class and of its callers *)

(** ** More on the sanitizer *)

Section StripMore.
Context {A : Type} (ws : A -> bool).

Lemma lstrip_by_sublist l : lstrip_by ws l `sublist_of` l.
Proof.
  destruct (lstrip_by_suffix ws l) as [w Hw].
  rewrite Hw at 2. apply sublist_inserts_l. reflexivity.
Qed.

Lemma rstrip_by_sublist l : rstrip_by ws l `sublist_of` l.
Proof.
  destruct (rstrip_by_prefix ws l) as [w Hw].
  rewrite Hw at 2. apply sublist_inserts_r. reflexivity.
Qed.

Lemma strip_by_sublist l : strip_by ws l `sublist_of` l.
Proof.
  unfold strip_by. etransitivity; [apply rstrip_by_sublist|].
  apply lstrip_by_sublist.
Qed.

Lemma filter_bool_sublist (p : A -> bool) l : List.filter p l `sublist_of` l.
Proof.
  induction l as [|c r IH]; cbn; [constructor|].
  destruct (p c); [apply sublist_skip | apply sublist_cons]; exact IH.
Qed.

Lemma lstrip_by_nil l : lstrip_by ws l = [] <-> forallb ws l = true.
Proof.
  induction l as [|c r IH]; cbn; [tauto|].
  destruct (ws c); cbn; [exact IH|]. split; discriminate.
Qed.

Lemma forallb_rev (p : A -> bool) l : forallb p (rev l) = forallb p l.
Proof.
  induction l as [|c r IH]; cbn; [reflexivity|].
  rewrite forallb_app, IH. cbn. rewrite andb_true_r. apply andb_comm.
Qed.

Lemma strip_by_nil l : strip_by ws l = [] <-> forallb ws l = true.
Proof.
  split.
  - unfold strip_by, rstrip_by. intros H.
    apply (f_equal (@rev A)) in H. rewrite rev_involutive in H. cbn in H.
    apply lstrip_by_nil in H. rewrite forallb_rev in H.
    pose proof (lstrip_by_clean_head ws l) as Hc.
    destruct (lstrip_by ws l) as [|c r] eqn:E.
    + apply lstrip_by_nil. exact E.
    + cbn in Hc, H. rewrite Hc in H. discriminate.
  - intros H. unfold strip_by.
    rewrite (proj2 (lstrip_by_nil l) H). reflexivity.
Qed.

Lemma strip_by_fixed l :
  clean_head ws l -> clean_head ws (rev l) -> strip_by ws l = l.
Proof.
  intros H1 H2. unfold strip_by, rstrip_by.
  rewrite (lstrip_by_fixed ws l H1), (lstrip_by_fixed ws (rev l) H2).
  apply rev_involutive.
Qed.

End StripMore.

Lemma list_ascii_of_string_app x y :
  list_ascii_of_string (x +:+ y)
  = list_ascii_of_string x ++ list_ascii_of_string y.
Proof.
  induction x as [|c x IH]; [reflexivity|].
  change (String c x +:+ y) with (String c (x +:+ y)).
  cbn [list_ascii_of_string app]. f_equal. exact IH.
Qed.

Lemma string_of_list_ascii_nil l : string_of_list_ascii l = "" <-> l = [].
Proof. destruct l; cbn; split; intros H; try reflexivity; discriminate. Qed.

(** X1. The sanitizer only removes: the characters of the sanitized name
    are characters of the name, in the order they have there, so the
    sanitized name is never longer than the name. *)
Theorem sanitize_subsequence (x : string) :
  list_ascii_of_string (_sanitize_filename x)
    `sublist_of` list_ascii_of_string x
  /\ length (list_ascii_of_string (_sanitize_filename x))
     <= length (list_ascii_of_string x).
Proof.
  assert (H : list_ascii_of_string (_sanitize_filename x)
                `sublist_of` list_ascii_of_string x).
  { unfold _sanitize_filename. rewrite list_ascii_of_string_of_list_ascii.
    etransitivity; [apply strip_by_sublist | apply filter_bool_sublist]. }
  split; [exact H | apply sublist_length, H].
Qed.

(** X2. The names the sanitizer leaves as they are are exactly the names
    made of kept characters only that neither begin nor end with
    whitespace. *)
Theorem sanitize_fixed_points (x : string) :
  _sanitize_filename x = x
  <-> forallb Char.kept (list_ascii_of_string x) = true
      /\ leading_space x = false /\ trailing_space x = false.
Proof.
  split.
  - intros H. split; [|split].
    + apply forallb_forall. intros c Hc. rewrite <- H in Hc.
      exact (sanitized_chars_kept x c Hc).
    + rewrite <- H. unfold leading_space, _sanitize_filename.
      rewrite list_ascii_of_string_of_list_ascii.
      pose proof (strip_by_clean_head Char.isspace
                    (List.filter Char.kept (list_ascii_of_string x))) as Hc.
      destruct (strip_by _ _); [reflexivity | exact Hc].
    + rewrite <- H. unfold trailing_space, _sanitize_filename.
      rewrite list_ascii_of_string_of_list_ascii.
      pose proof (strip_by_clean_last Char.isspace
                    (List.filter Char.kept (list_ascii_of_string x))) as Hc.
      destruct (rev _); [reflexivity | exact Hc].
  - intros (Hk & Hl & Ht). unfold _sanitize_filename.
    rewrite (filter_fixed Char.kept).
    + rewrite strip_by_fixed.
      * apply string_of_list_ascii_of_string.
      * unfold leading_space in Hl.
        destruct (list_ascii_of_string x); [exact I | exact Hl].
      * unfold trailing_space in Ht.
        destruct (rev (list_ascii_of_string x)); [exact I | exact Ht].
    + intros c Hc. exact (proj1 (forallb_forall _ _) Hk c Hc).
Qed.

(** X3. A character that the filter drops is invisible wherever it
    stands: two names that differ by such a character have the same
    sanitized name, so distinct titles can share a directory. *)
Theorem sanitize_ignores_dropped (x y : string) (c : ascii) :
  Char.kept c = false ->
  _sanitize_filename (x +:+ String c y) = _sanitize_filename (x +:+ y).
Proof.
  intros Hc. unfold _sanitize_filename.
  rewrite !list_ascii_of_string_app, !List.filter_app.
  cbn [list_ascii_of_string List.filter]. rewrite Hc. reflexivity.
Qed.

Lemma sanitize_ignores_dropped_witness :
  _sanitize_filename ("My Clip" +:+ String ":" " Test!")
  = _sanitize_filename ("My Clip" +:+ " Test!").
Proof. apply (sanitize_ignores_dropped "My Clip" " Test!" ":"). reflexivity. Defined.

(** X4. The sanitized name is empty exactly when every character of the
    name is dropped by the filter or is whitespace. *)
Theorem sanitize_empty_iff (x : string) :
  _sanitize_filename x = ""
  <-> forallb droppable (list_ascii_of_string x) = true.
Proof.
  unfold _sanitize_filename.
  rewrite string_of_list_ascii_nil, strip_by_nil.
  induction (list_ascii_of_string x) as [|c r IH]; cbn; [tauto|].
  unfold droppable at 1. destruct (Char.kept c); cbn.
  - destruct (Char.isspace c); cbn; [exact IH | tauto].
  - exact IH.
Qed.

(** ** Where the video directory lies *)

Lemma prefix_append a b : String.prefix a (a +:+ b) = true.
Proof.
  induction a as [|c a IH]; [destruct b; reflexivity|].
  change (String c a +:+ b) with (String c (a +:+ b)).
  cbn [String.prefix]. destruct (ascii_dec c c); [exact IH | congruence].
Qed.

Lemma prefix_join a b :
  String.prefix "/" b = false -> String.prefix a (os_path_join a b) = true.
Proof.
  intros Hb. unfold os_path_join. rewrite Hb.
  destruct (String.eqb a "" || endswith_sep a); apply prefix_append.
Qed.

Lemma sanitized_not_absolute t :
  String.prefix "/" (_sanitize_filename t) = false.
Proof.
  pose proof (sanitized_chars_kept t) as H.
  destruct (_sanitize_filename t) as [|c r]; [reflexivity|].
  cbn [String.prefix]. destruct (ascii_dec "/" c) as [<-|]; [|reflexivity].
  specialize (H "/"%char (or_introl eq_refl)). discriminate H.
Qed.

(** X5. A sanitized title holds no path separator, so joining it to the
    base directory never replaces the base: the path of the video
    directory begins with the path of the base directory, whatever the
    title. *)
Theorem video_dir_under_base (base t : string) :
  forallb (fun c => negb (is_sep c))
          (list_ascii_of_string (_sanitize_filename t)) = true
  /\ String.prefix base (os_path_join base (_sanitize_filename t)) = true.
Proof.
  split.
  - apply forallb_forall. intros c Hc.
    apply sanitized_chars_kept in Hc. unfold is_sep.
    destruct (Ascii.eqb_spec c "/") as [->|]; [discriminate Hc | reflexivity].
  - apply prefix_join, sanitized_not_absolute.
Qed.

(** ** Construction *)


(** X7. The constructor does not look at the URL: with another URL it
    ends the same way, in the same world, with a session that differs in
    the URL only. *)
Theorem init_ignores_url h (url1 url2 base : string) (w : World) :
  snd (__init__ h url1 base w) = snd (__init__ h url2 base w)
  /\ match fst (__init__ h url1 base w), fst (__init__ h url2 base w) with
     | Return s1, Return s2 =>
         youtube_url s1 = url1 /\ youtube_url s2 = url2
         /\ output_base_dir s1 = output_base_dir s2
     | Raise e1, Raise e2 => e1 = e2
     | _, _ => False
     end.
Proof.
  run_method.
  destruct (os_makedirs h (os_path_abspath h base) w) as [[[]|e] w'];
    cbn; tauto.
Qed.

(** ** Acquisition *)

(** X8. When [download_video] returns a path, the title has resolved; the
    session keeps its URL and base directory and holds the returned path
    as video file, the join of the base directory and the sanitized title
    as video directory, and [audio] and [frames] under it; the three
    directories exist, the video file is recorded as written, and nothing
    that was there before is gone. *)
Theorem download_video_postcondition h s w p s' w' :
  download_video h (s, w) = (Return p, (s', w')) ->
  exists stream t,
    resolve h w (youtube_url s) = Return (stream, t)
    /\ s' = {| youtube_url := youtube_url s;
               output_base_dir := output_base_dir s;
               video_filename := Some p;
               video_dir :=
                 Some (os_path_join (output_base_dir s)
                         (_sanitize_filename t));
               audio_dir :=
                 Some (os_path_join
                         (os_path_join (output_base_dir s)
                            (_sanitize_filename t)) "audio");
               frames_dir :=
                 Some (os_path_join
                         (os_path_join (output_base_dir s)
                            (_sanitize_filename t)) "frames") |}
    /\ os_path_join (output_base_dir s) (_sanitize_filename t) ∈ dirs w'
    /\ os_path_join
         (os_path_join (output_base_dir s) (_sanitize_filename t)) "audio"
       ∈ dirs w'
    /\ os_path_join
         (os_path_join (output_base_dir s) (_sanitize_filename t)) "frames"
       ∈ dirs w'
    /\ p ∈ files w'
    /\ dirs w ⊆ dirs w' /\ files w ⊆ files w'.
Proof.
  intros E. apply download_video_acquisition in E.
  inversion E; subst; clear E.
  exists stream, t. split; [assumption|]. split; [reflexivity|].
  stage_facts. cbn [dirs files persist] in *.
  repeat match goal with H : _ /\ _ |- _ => destruct H end.
  repeat split;
    first
      [ solve [dirs_chain]
      | solve [repeat (etransitivity; [eassumption|]); reflexivity]
      | repeat match goal with
               | H : files ?x = _ |- context [files ?x] => rewrite H
               end;
        first [ apply elem_of_union_l, elem_of_singleton; reflexivity
              | apply union_subseteq_r ] ].
Qed.

Lemma download_video_postcondition_witness :
  "/work/my_videos/My Clip Test/video.mp4" ∈ files acquired_world.
Proof.
  assert (Hrun : download_video host_ok (fresh_session, fresh_world)
                 = (Return "/work/my_videos/My Clip Test/video.mp4",
                    (acquired_session, acquired_world))).
  { vm_compute. reflexivity. }
  destruct (download_video_postcondition _ _ _ _ _ _ Hrun)
    as (stream & t & _ & _ & _ & _ & _ & Hp & _).
  exact Hp.
Defined.

(** X9. An acquisition does not look at the paths of an earlier one: on
    two sessions with the same URL and base directory [download_video]
    ends the same way, in the same world, and when it returns the two
    sessions are the same afterwards. *)
Theorem download_video_ignores_old_paths h (s1 s2 : Session) (w : World) :
  youtube_url s1 = youtube_url s2 ->
  output_base_dir s1 = output_base_dir s2 ->
  fst (download_video h (s1, w)) = fst (download_video h (s2, w))
  /\ snd (snd (download_video h (s1, w)))
     = snd (snd (download_video h (s2, w)))
  /\ (forall p,
        fst (download_video h (s1, w)) = Return p ->
        fst (snd (download_video h (s1, w)))
        = fst (snd (download_video h (s2, w)))).
Proof.
  intros Hu Hb.
  destruct (download_video h (s1, w)) as [r [s1' w']] eqn:E.
  apply download_video_acquisition in E.
  assert (H : exists s2',
             acquisition h s2 w r s2' w'
             /\ (forall p, r = Return p -> s1' = s2')).
  { destruct E; rewrite ?Hu, ?Hb in *; eexists;
      (split; [econstructor; eassumption|]); try discriminate.
    intros _ _. unfold with_video, with_frames_dir, with_audio_dir,
      with_video_filename, with_video_dir. cbn. rewrite Hu, Hb.
    reflexivity. }
  destruct H as (s2' & Ha & Hs).
  rewrite (acquisition_download_video h s2 w r s2' w' Ha). cbn [fst snd].
  split; [reflexivity|]. split; [reflexivity | exact Hs].
Qed.

Lemma download_video_ignores_old_paths_witness :
  fst (download_video host_ok (acquired_session, fresh_world))
  = fst (download_video host_ok (fresh_session, fresh_world)).
Proof.
  apply (download_video_ignores_old_paths host_ok acquired_session
           fresh_session fresh_world eq_refl eq_refl).
Defined.

(** X10. When the provider has no stream to offer
    ([get_highest_resolution()] returns [None]) and the title resolves,
    [download_video] fails only at the download: the video directory has
    been assigned and its creation attempted, nothing is persisted, the
    video file path is as before, and the exception raised is the
    wrapped failure of the directory creation or of the attribute lookup
    on [None]. *)
Theorem download_without_stream h (s : Session) (w : World) (t : string) :
  resolve h w (youtube_url s) = Return (None, t) ->
  exists c o,
    fst (download_video h (s, w))
    = Raise (CineNotesException download_failed c)
    /\ fst (snd (download_video h (s, w)))
       = with_video_dir
           (os_path_join (output_base_dir s) (_sanitize_filename t)) s
    /\ events_since w (snd (snd (download_video h (s, w))))
       = [EvMakedirs
            (os_path_join (output_base_dir s) (_sanitize_filename t)) o]
    /\ (o = Failed \/ exists m, c = AttributeError m).
Proof.
  intros Hres.
  destruct (download_video h (s, w)) as [r [s' w']] eqn:E. cbn [fst snd].
  apply download_video_acquisition in E.
  inversion E; subst; clear E;
    match goal with
    | H : resolve _ _ _ = _ |- _ => rewrite Hres in H; inversion H; subst
    end.
  - stage_facts. exists e, o. repeat split.
    + apply events_since_app, Ht.
    + left. tauto.
  - match goal with
    | H : stream_download None _ _ _ = _ |- _ =>
        cbn in H; inversion H; subst
    end.
    stage_facts. eexists _, o. repeat split.
    + apply events_since_app, Ht.
    + right. eexists. reflexivity.
  - match goal with
    | H : stream_download None _ _ _ = _ |- _ => cbn in H; inversion H
    end.
  - match goal with
    | H : stream_download None _ _ _ = _ |- _ => cbn in H; inversion H
    end.
  - match goal with
    | H : stream_download None _ _ _ = _ |- _ => cbn in H; inversion H
    end.
Qed.

Lemma download_without_stream_witness :
  fst (snd (download_video host_no_stream (fresh_session, fresh_world)))
  = with_video_dir "/work/my_videos/My Clip Test" fresh_session.
Proof.
  destruct (download_without_stream host_no_stream fresh_session
              fresh_world "My Clip: Test!" eq_refl)
    as (c & o & _ & Hs & _).
  exact Hs.
Defined.

(** ** Any sequence of calls *)

Lemma download_video_world_grows h s w :
  dirs w ⊆ dirs (snd (snd (download_video h (s, w))))
  /\ files w ⊆ files (snd (snd (download_video h (s, w))))
  /\ trace w `prefix_of` trace (snd (snd (download_video h (s, w)))).
Proof.
  destruct (download_video h (s, w)) as [r [s' w']] eqn:E. cbn [fst snd].
  apply download_video_acquisition in E.
  destruct E; stage_facts; cbn [dirs files trace persist] in *;
    repeat match goal with H : _ /\ _ |- _ => destruct H end;
    (split; [|split]);
    first
      [ reflexivity
      | solve [repeat (etransitivity; [eassumption|]); reflexivity]
      | solve [repeat match goal with
                      | H : files ?x = _ |- context [files ?x] => rewrite H
                      end;
               first [reflexivity | apply union_subseteq_r]]
      | solve [repeat match goal with
                      | H : trace ?x = _ |- context [trace ?x] => rewrite H
                      end;
               cbn [trace persist]; rewrite <- ?app_assoc;
               apply prefix_app_r; reflexivity] ].
Qed.

Lemma extract_audio_world_cases h s w fname :
  snd (snd (extract_audio h fname (s, w))) = w
  \/ exists cmd, snd (snd (extract_audio h fname (s, w))) = log (EvRun cmd) w.
Proof.
  destruct (video_filename s) as [v|] eqn:Ev.
  - destruct (String.eqb_spec v "") as [->|Hv].
    + rewrite extract_audio_no_video by tauto. left. reflexivity.
    + destruct (audio_dir s) as [a|] eqn:Ea.
      * rewrite (extract_audio_with_video h s w fname v a Ev Hv Ea).
        right. eexists. reflexivity.
      * destruct (extract_audio_no_dir h s w fname v Ev Hv Ea) as [m ->].
        left. reflexivity.
  - rewrite extract_audio_no_video by tauto. left. reflexivity.
Qed.

Lemma extract_frames_world_cases h s w pre fmt :
  snd (snd (extract_frames h pre fmt (s, w))) = w
  \/ exists cmd,
       snd (snd (extract_frames h pre fmt (s, w))) = log (EvRun cmd) w.
Proof.
  destruct (video_filename s) as [v|] eqn:Ev.
  - destruct (String.eqb_spec v "") as [->|Hv].
    + rewrite extract_frames_no_video by tauto. left. reflexivity.
    + destruct (frames_dir s) as [f|] eqn:Ef.
      * rewrite (extract_frames_with_video h s w pre fmt v f Ev Hv Ef).
        right. eexists. reflexivity.
      * destruct (extract_frames_no_dir h s w pre fmt v Ev Hv Ef) as [m ->].
        left. reflexivity.
  - rewrite extract_frames_no_video by tauto. left. reflexivity.
Qed.

Lemma extract_audio_session h s w fname :
  fst (snd (extract_audio h fname (s, w))) = s.
Proof.
  destruct (video_filename s) as [v|] eqn:Ev.
  - destruct (String.eqb_spec v "") as [->|Hv].
    + rewrite extract_audio_no_video by tauto. reflexivity.
    + destruct (audio_dir s) as [a|] eqn:Ea.
      * rewrite (extract_audio_with_video h s w fname v a Ev Hv Ea).
        reflexivity.
      * destruct (extract_audio_no_dir h s w fname v Ev Hv Ea) as [m ->].
        reflexivity.
  - rewrite extract_audio_no_video by tauto. reflexivity.
Qed.

Lemma extract_frames_session h s w pre fmt :
  fst (snd (extract_frames h pre fmt (s, w))) = s.
Proof.
  destruct (video_filename s) as [v|] eqn:Ev.
  - destruct (String.eqb_spec v "") as [->|Hv].
    + rewrite extract_frames_no_video by tauto. reflexivity.
    + destruct (frames_dir s) as [f|] eqn:Ef.
      * rewrite (extract_frames_with_video h s w pre fmt v f Ev Hv Ef).
        reflexivity.
      * destruct (extract_frames_no_dir h s w pre fmt v Ev Hv Ef) as [m ->].
        reflexivity.
  - rewrite extract_frames_no_video by tauto. reflexivity.
Qed.

Lemma kept_by_calls_refl st : kept_by_calls st st.
Proof. unfold kept_by_calls. repeat split; auto; reflexivity. Qed.

Lemma kept_by_calls_trans st1 st2 st3 :
  kept_by_calls st1 st2 -> kept_by_calls st2 st3 -> kept_by_calls st1 st3.
Proof.
  unfold kept_by_calls.
  intros (A1 & A2 & A3 & A4 & A5 & A6) (B1 & B2 & B3 & B4 & B5 & B6).
  repeat split; try congruence; try (etransitivity; eassumption).
  auto.
Qed.

Lemma step_keeps h st o : kept_by_calls st (step h st o).
Proof.
  destruct st as [s w]. destruct o as [|fname|pre fmt]; cbn [step].
  - destruct (download_video_world_grows h s w) as (Hd & Hf & Ht).
    destruct (download_video h (s, w)) as [r [s' w']] eqn:E.
    cbn [fst snd] in *.
    destruct (acquisition_summary h s w r s' w'
                (download_video_acquisition h s w r s' w' E))
      as (vdir & file & o1 & o2 & o3 & n & _ & -> & _).
    unfold kept_by_calls. cbn [fst snd].
    repeat split; try assumption;
      destruct n as [|[|[|n]]]; cbn; try reflexivity; try tauto;
      discriminate.
  - unfold kept_by_calls. rewrite extract_audio_session. cbn [fst snd].
    repeat split; auto;
      destruct (extract_audio_world_cases h s w fname) as [->|[c ->]];
      cbn [dirs files trace log]; try reflexivity.
    apply prefix_app_r. reflexivity.
  - unfold kept_by_calls. rewrite extract_frames_session. cbn [fst snd].
    repeat split; auto;
      destruct (extract_frames_world_cases h s w pre fmt) as [->|[c ->]];
      cbn [dirs files trace log]; try reflexivity.
    apply prefix_app_r. reflexivity.
Qed.

Lemma step_consistent h st o :
  consistent (fst st) -> consistent (fst (step h st o)).
Proof.
  destruct st as [s w]. destruct o as [|fname|pre fmt]; cbn [step fst].
  - apply download_video_consistent.
  - rewrite extract_audio_session. auto.
  - rewrite extract_frames_session. auto.
Qed.

(** X11. Whatever calls are made on a session after its construction, in
    whatever order and however each of them ends, the URL and the base
    directory stay as constructed, a video file path once set stays set,
    a session that holds a video file path holds the audio and frames
    directories, no directory and no file that the methods know of is
    removed, and the record of outside calls only grows. *)
Theorem any_calls_keep h (ops : list op) (s : Session) (w : World) :
  youtube_url (fst (run_ops h ops (s, w))) = youtube_url s
  /\ output_base_dir (fst (run_ops h ops (s, w))) = output_base_dir s
  /\ (video_filename s <> None ->
      video_filename (fst (run_ops h ops (s, w))) <> None)
  /\ (consistent s -> consistent (fst (run_ops h ops (s, w))))
  /\ dirs w ⊆ dirs (snd (run_ops h ops (s, w)))
  /\ files w ⊆ files (snd (run_ops h ops (s, w)))
  /\ trace w `prefix_of` trace (snd (run_ops h ops (s, w))).
Proof.
  assert (H : forall st,
             kept_by_calls st (run_ops h ops st)
             /\ (consistent (fst st) ->
                 consistent (fst (run_ops h ops st)))).
  { induction ops as [|o ops IH]; intros st; cbn.
    - split; [apply kept_by_calls_refl | auto].
    - destruct (IH (step h st o)) as [IH1 IH2]. split.
      + eapply kept_by_calls_trans; [apply step_keeps | exact IH1].
      + intros Hc. apply IH2, step_consistent, Hc. }
  destruct (H (s, w)) as ((H1 & H2 & H3 & H4 & H5 & H6) & Hc).
  cbn [fst snd] in *. tauto.
Qed.

(** ** The extractors *)



Lemma extract_audio_agree h (s1 s2 : Session) (w : World) fname :
  video_filename s1 = video_filename s2 -> audio_dir s1 = audio_dir s2 ->
  fst (extract_audio h fname (s1, w)) = fst (extract_audio h fname (s2, w))
  /\ snd (snd (extract_audio h fname (s1, w)))
     = snd (snd (extract_audio h fname (s2, w))).
Proof.
  intros Hv Ha.
  destruct (video_filename s2) as [v|] eqn:Ev.
  - destruct (String.eqb_spec v "") as [->|Hne].
    + rewrite !extract_audio_no_video by tauto. split; reflexivity.
    + destruct (audio_dir s2) as [a|] eqn:Ea.
      * rewrite (extract_audio_with_video h s1 w fname v a Hv Hne Ha).
        rewrite (extract_audio_with_video h s2 w fname v a Ev Hne Ea).
        split; reflexivity.
      * run_method. rewrite Hv, Ha, Ev, Ea.
        apply String.eqb_neq in Hne. rewrite Hne. split; reflexivity.
  - rewrite !extract_audio_no_video by tauto. split; reflexivity.
Qed.

Lemma extract_frames_agree h (s1 s2 : Session) (w : World) pre fmt :
  video_filename s1 = video_filename s2 -> frames_dir s1 = frames_dir s2 ->
  fst (extract_frames h pre fmt (s1, w))
  = fst (extract_frames h pre fmt (s2, w))
  /\ snd (snd (extract_frames h pre fmt (s1, w)))
     = snd (snd (extract_frames h pre fmt (s2, w))).
Proof.
  intros Hv Hf.
  destruct (video_filename s2) as [v|] eqn:Ev.
  - destruct (String.eqb_spec v "") as [->|Hne].
    + rewrite !extract_frames_no_video by tauto. split; reflexivity.
    + destruct (frames_dir s2) as [f|] eqn:Ef.
      * rewrite (extract_frames_with_video h s1 w pre fmt v f Hv Hne Hf).
        rewrite (extract_frames_with_video h s2 w pre fmt v f Ev Hne Ef).
        split; reflexivity.
      * run_method. rewrite Hv, Hf, Ev, Ef.
        apply String.eqb_neq in Hne. rewrite Hne. split; reflexivity.
  - rewrite !extract_frames_no_video by tauto. split; reflexivity.
Qed.

(** X13. [extract_audio] reads the video file path and the audio
    directory of the session and nothing else of it, [extract_frames] the
    video file path and the frames directory: on two sessions that agree
    on these, a call ends the same way and leaves the same world. *)
Theorem extractors_read_their_fields h (s1 s2 : Session) (w : World)
    (fname pre fmt : string) :
  video_filename s1 = video_filename s2 ->
  (audio_dir s1 = audio_dir s2 ->
   fst (extract_audio h fname (s1, w)) = fst (extract_audio h fname (s2, w))
   /\ snd (snd (extract_audio h fname (s1, w)))
      = snd (snd (extract_audio h fname (s2, w))))
  /\ (frames_dir s1 = frames_dir s2 ->
      fst (extract_frames h pre fmt (s1, w))
      = fst (extract_frames h pre fmt (s2, w))
      /\ snd (snd (extract_frames h pre fmt (s1, w)))
         = snd (snd (extract_frames h pre fmt (s2, w)))).
Proof.
  intros Hv. split.
  - intros Ha. apply extract_audio_agree; assumption.
  - intros Hf. apply extract_frames_agree; assumption.
Qed.

Lemma extractors_read_their_fields_witness :
  fst (extract_audio host_ok default_audio_filename
         (with_video_dir "/elsewhere" acquired_session, acquired_world))
  = fst (extract_audio host_ok default_audio_filename
           (acquired_session, acquired_world)).
Proof.
  apply (extractors_read_their_fields host_ok
           (with_video_dir "/elsewhere" acquired_session) acquired_session
           acquired_world default_audio_filename default_image_prefix
           default_image_format eq_refl).
  reflexivity.
Defined.

Example hollow_session_raises :
  extract_audio host_ok default_audio_filename (hollow_session, fresh_world)
  = (Raise (ValueError no_video_msg), (hollow_session, fresh_world)).
Proof. reflexivity. Qed.

(** X14. On a session that holds a video, the two extractions can be
    called in either order and again: each call launches its own command,
    the same one whatever was called before and however it ended, and the
    session is as before; only the order of the launches differs. *)
Theorem extractions_in_any_order h (s : Session) (w : World)
    (v a f fname pre fmt : string) :
  video_filename s = Some v -> v <> "" ->
  audio_dir s = Some a -> frames_dir s = Some f ->
  let cmd_audio := audio_cmd v (os_path_join a fname) in
  let cmd_frames :=
    frames_cmd v (os_path_join f (pre +:+ "%05d." +:+ fmt)) in
  run_ops h [OpExtractAudio fname; OpExtractFrames pre fmt] (s, w)
  = (s, log (EvRun cmd_frames) (log (EvRun cmd_audio) w))
  /\ run_ops h [OpExtractFrames pre fmt; OpExtractAudio fname] (s, w)
     = (s, log (EvRun cmd_audio) (log (EvRun cmd_frames) w))
  /\ run_ops h [OpExtractAudio fname; OpExtractAudio fname] (s, w)
     = (s, log (EvRun cmd_audio) (log (EvRun cmd_audio) w)).
Proof.
  intros Ev Hv Ea Ef cmd_audio cmd_frames.
  unfold run_ops. cbn [fold_left step].
  repeat split.
  - rewrite (extract_audio_with_video h s w fname v a Ev Hv Ea).
    cbn [snd].
    rewrite (extract_frames_with_video h s _ pre fmt v f Ev Hv Ef).
    reflexivity.
  - rewrite (extract_frames_with_video h s w pre fmt v f Ev Hv Ef).
    cbn [snd].
    rewrite (extract_audio_with_video h s _ fname v a Ev Hv Ea).
    reflexivity.
  - rewrite (extract_audio_with_video h s w fname v a Ev Hv Ea).
    cbn [snd].
    rewrite (extract_audio_with_video h s _ fname v a Ev Hv Ea).
    reflexivity.
Qed.

Lemma extractions_in_any_order_witness :
  fst (run_ops host_ffmpeg_fails
         [OpExtractAudio default_audio_filename;
          OpExtractFrames default_image_prefix default_image_format]
         (acquired_session, acquired_world))
  = acquired_session.
Proof.
  pose proof (extractions_in_any_order host_ffmpeg_fails acquired_session
                acquired_world
                "/work/my_videos/My Clip Test/video.mp4"
                "/work/my_videos/My Clip Test/audio"
                "/work/my_videos/My Clip Test/frames"
                default_audio_filename default_image_prefix
                default_image_format eq_refl ltac:(discriminate)
                eq_refl eq_refl) as H.
  cbv zeta in H. destruct H as (H & _). rewrite H. reflexivity.
Defined.

(** ** The layout *)

Lemma append_cancel_l a x y : a +:+ x = a +:+ y -> x = y.
Proof.
  induction a as [|c a IH]; [auto|].
  change (String c a +:+ x) with (String c (a +:+ x)).
  change (String c a +:+ y) with (String c (a +:+ y)).
  intros H. inversion H. auto.
Qed.

Lemma append_empty_r a : a +:+ "" = a.
Proof.
  induction a as [|c a IH]; [reflexivity|].
  change (String c a +:+ "") with (String c (a +:+ "")). f_equal. exact IH.
Qed.

Lemma join_child_distinct v :
  os_path_join v "audio" <> os_path_join v "frames"
  /\ os_path_join v "audio" <> v
  /\ os_path_join v "frames" <> v.
Proof.
  unfold os_path_join. cbn [String.prefix].
  destruct (ascii_dec "/" "a"); [discriminate|].
  destruct (ascii_dec "/" "f"); [discriminate|].
  destruct (String.eqb v "" || endswith_sep v);
    repeat split; intros H;
    try (apply append_cancel_l in H; discriminate H);
    rewrite <- (append_empty_r v) in H at 2;
    apply append_cancel_l in H; discriminate H.
Qed.

(** X15. After an acquisition that returns, the audio directory, the
    frames directory and the video directory of the session are three
    different paths, the first two formed from the third. *)
Theorem layout_paths_distinct h s w p s' w' :
  download_video h (s, w) = (Return p, (s', w')) ->
  exists vdir,
    video_dir s' = Some vdir
    /\ audio_dir s' = Some (os_path_join vdir "audio")
    /\ frames_dir s' = Some (os_path_join vdir "frames")
    /\ audio_dir s' <> frames_dir s'
    /\ audio_dir s' <> video_dir s'
    /\ frames_dir s' <> video_dir s'.
Proof.
  intros E. destruct (acquired_dirs h s w p s' w' E) as (vdir & -> & _).
  destruct (join_child_distinct vdir) as (H1 & H2 & H3).
  exists vdir.
  unfold with_video, with_frames_dir, with_audio_dir, with_video_filename,
    with_video_dir.
  cbn [video_dir audio_dir frames_dir].
  repeat split; intros H; inversion H; contradiction.
Qed.

Lemma layout_paths_distinct_witness :
  audio_dir acquired_session <> frames_dir acquired_session.
Proof.
  assert (Hrun : download_video host_ok (fresh_session, fresh_world)
                 = (Return "/work/my_videos/My Clip Test/video.mp4",
                    (acquired_session, acquired_world))).
  { vm_compute. reflexivity. }
  destruct (layout_paths_distinct _ _ _ _ _ _ Hrun)
    as (vdir & _ & _ & _ & H & _).
  exact H.
Defined.

(** X16. A file name or a prefix that is an absolute path replaces the
    directory of the session: [extract_audio] then writes to, and
    returns, the name itself, and [extract_frames] writes its frames
    under the prefix and still returns the frames directory. *)
Theorem absolute_names_leave_the_layout h (s : Session) (w : World)
    (v a f fname pre fmt : string) :
  video_filename s = Some v -> v <> "" ->
  audio_dir s = Some a -> frames_dir s = Some f ->
  (String.prefix "/" fname = true ->
   events_since w (snd (snd (extract_audio h fname (s, w))))
   = [EvRun (audio_cmd v fname)]
   /\ (spawn h w (audio_cmd v fname) = Exited 0 ->
       fst (extract_audio h fname (s, w)) = Return fname))
  /\ (String.prefix "/" pre = true ->
      events_since w (snd (snd (extract_frames h pre fmt (s, w))))
      = [EvRun (frames_cmd v (pre +:+ "%05d." +:+ fmt))]
      /\ (spawn h w (frames_cmd v (pre +:+ "%05d." +:+ fmt)) = Exited 0 ->
          fst (extract_frames h pre fmt (s, w)) = Return (Some f))).
Proof.
  intros Ev Hv Ea Ef. split.
  - intros Hp.
    rewrite (extract_audio_with_video h s w fname v a Ev Hv Ea).
    cbn [fst snd].
    assert (Hj : os_path_join a fname = fname).
    { unfold os_path_join. rewrite Hp. reflexivity. }
    rewrite Hj. split; [apply events_since_log|].
    intros ->. reflexivity.
  - intros Hp.
    rewrite (extract_frames_with_video h s w pre fmt v f Ev Hv Ef).
    cbn [fst snd].
    assert (Hj : os_path_join f (pre +:+ "%05d." +:+ fmt)
                 = pre +:+ "%05d." +:+ fmt).
    { unfold os_path_join.
      destruct pre as [|c r]; [discriminate Hp|].
      change (String c r +:+ "%05d." +:+ fmt)
        with (String c (r +:+ "%05d." +:+ fmt)).
      cbn [String.prefix] in Hp |- *.
      destruct (ascii_dec "/" c); [|discriminate Hp].
      destruct (r +:+ "%05d." +:+ fmt); reflexivity. }
    rewrite Hj. split; [apply events_since_log|].
    intros ->. reflexivity.
Qed.

Lemma absolute_names_leave_the_layout_witness :
  fst (extract_audio host_ok "/tmp/a.wav" (acquired_session, acquired_world))
  = Return "/tmp/a.wav".
Proof.
  pose proof (absolute_names_leave_the_layout host_ok acquired_session
                acquired_world
                "/work/my_videos/My Clip Test/video.mp4"
                "/work/my_videos/My Clip Test/audio"
                "/work/my_videos/My Clip Test/frames"
                "/tmp/a.wav" default_image_prefix default_image_format
                eq_refl ltac:(discriminate) eq_refl eq_refl) as (H & _).
  exact (proj2 (H eq_refl) eq_refl).
Defined.

(** ** The driving cell *)




(** ** A title with nothing to keep *)

Lemma endswith_sep_app a : endswith_sep (a +:+ "/") = true.
Proof.
  unfold endswith_sep.
  induction a as [|c a IH]; [reflexivity|].
  change (String c a +:+ "/") with (String c (a +:+ "/")).
  destruct (a +:+ "/") as [|d r] eqn:E.
  - destruct a; discriminate E.
  - cbn [String.length] in *.
    rewrite Nat.sub_succ, Nat.sub_0_r in *.
    cbn [String.substring]. exact IH.
Qed.

Lemma append_assoc_sep a x : (a +:+ "/") +:+ x = a +:+ String "/" x.
Proof.
  induction a as [|c a IH]; [reflexivity|].
  change ((String c a +:+ "/") +:+ x) with (String c ((a +:+ "/") +:+ x)).
  change (String c a +:+ String "/" x) with (String c (a +:+ String "/" x)).
  f_equal. exact IH.
Qed.

Lemma join_empty base :
  base <> "" -> endswith_sep base = false ->
  os_path_join base "" = base +:+ "/"
  /\ os_path_join (base +:+ "/") "audio" = base +:+ "/audio"
  /\ os_path_join (base +:+ "/") "frames" = base +:+ "/frames"
  /\ os_path_join (base +:+ "/") "video.mp4" = base +:+ "/video.mp4".
Proof.
  intros Hne He. apply String.eqb_neq in Hne.
  assert (Happ : forall x, (base +:+ "/") +:+ x = base +:+ String "/" x).
  { intros x. apply append_assoc_sep. }
  unfold os_path_join.
  cbn [String.prefix]. rewrite Hne, He, (endswith_sep_app base).
  rewrite orb_true_r. cbn [orb].
  destruct (ascii_dec "/" "a"); [discriminate|].
  destruct (ascii_dec "/" "f"); [discriminate|].
  destruct (ascii_dec "/" "v"); [discriminate|].
  rewrite !Happ. repeat split.
Qed.

(** X18. When every character of the resolved title is dropped or
    whitespace, the sanitized title is empty and the layout falls into
    the base directory itself: after an acquisition that returns, the
    video directory is the base directory with a trailing separator, and
    the audio and frames directories are [audio] and [frames] directly
    under the base directory. *)
Theorem untitled_video_lands_in_base h s w p s' w' stream t :
  download_video h (s, w) = (Return p, (s', w')) ->
  resolve h w (youtube_url s) = Return (stream, t) ->
  forallb droppable (list_ascii_of_string t) = true ->
  output_base_dir s <> "" -> endswith_sep (output_base_dir s) = false ->
  video_dir s' = Some (output_base_dir s +:+ "/")
  /\ audio_dir s' = Some (output_base_dir s +:+ "/audio")
  /\ frames_dir s' = Some (output_base_dir s +:+ "/frames").
Proof.
  intros E Hres Hdrop Hne He.
  assert (Ht : _sanitize_filename t = "").
  { unfold _sanitize_filename.
    apply string_of_list_ascii_nil, strip_by_nil.
    clear - Hdrop.
    induction (list_ascii_of_string t) as [|c r IH]; [reflexivity|].
    cbn in Hdrop |- *. apply andb_true_iff in Hdrop as [Hc Hr].
    unfold droppable in Hc.
    destruct (Char.kept c); cbn in Hc |- *; [rewrite Hc|]; auto. }
  apply download_video_acquisition in E.
  inversion E; subst; clear E.
  match goal with
  | H : resolve _ _ _ = _ |- _ => rewrite Hres in H; inversion H; subst
  end.
  rewrite Ht.
  destruct (join_empty (output_base_dir s) Hne He) as (J1 & J2 & J3 & _).
  unfold with_video, with_frames_dir, with_audio_dir, with_video_filename,
    with_video_dir.
  cbn [video_dir audio_dir frames_dir].
  rewrite J1, J2, J3. repeat split.
Qed.

Lemma untitled_video_lands_in_base_witness :
  audio_dir
    (fst (snd (download_video host_untitled (fresh_session, fresh_world))))
  = Some "/work/my_videos/audio".
Proof.
  assert (Hrun : download_video host_untitled (fresh_session, fresh_world)
                 = (Return "/work/my_videos/video.mp4",
                    snd (download_video host_untitled
                           (fresh_session, fresh_world)))).
  { vm_compute. reflexivity. }
  destruct (snd (download_video host_untitled (fresh_session, fresh_world)))
    as [s' w'] eqn:E.
  cbn [fst].
  destruct (untitled_video_lands_in_base host_untitled fresh_session
              fresh_world _ s' w' (Some good_stream) " ?!* " Hrun eq_refl
              eq_refl ltac:(discriminate) eq_refl) as (_ & H & _).
  exact H.
Defined.

(** ** What a method can raise, and what a failed attempt leaves usable *)


(** X20. An acquisition that fails without having persisted a video
    leaves the video file path and the audio and frames directories of
    the session as they were, so that the extractors then do on the
    session what they would have done before the attempt. *)
Theorem failed_attempt_keeps_video h (s : Session) (w : World) (e : exn) :
  fst (download_video h (s, w)) = Raise e ->
  (forall p, ~ In (EvPersist p)
               (events_since w (snd (snd (download_video h (s, w)))))) ->
  video_filename (fst (snd (download_video h (s, w)))) = video_filename s
  /\ audio_dir (fst (snd (download_video h (s, w)))) = audio_dir s
  /\ frames_dir (fst (snd (download_video h (s, w)))) = frames_dir s
  /\ (forall w2 fname pre fmt,
        fst (extract_audio h fname
               (fst (snd (download_video h (s, w))), w2))
        = fst (extract_audio h fname (s, w2))
        /\ fst (extract_frames h pre fmt
                  (fst (snd (download_video h (s, w))), w2))
           = fst (extract_frames h pre fmt (s, w2))).
Proof.
  destruct (download_video h (s, w)) as [r [s' w']] eqn:E. cbn [fst snd].
  intros -> Hno.
  destruct (acquisition_summary h s w (Raise e) s' w'
              (download_video_acquisition h s w _ s' w' E))
    as (vdir & file & o1 & o2 & o3 & n & Hev & -> & _ & _ & c & _ & Hn).
  assert (Hn' : n = 0 \/ n = 1).
  { destruct Hn as [->|[->|[[-> _]|[-> _]]]]; auto;
      exfalso; apply (Hno file); rewrite Hev; cbn; auto. }
  assert (Hf : video_filename (session_after n vdir file s)
               = video_filename s
               /\ audio_dir (session_after n vdir file s) = audio_dir s
               /\ frames_dir (session_after n vdir file s) = frames_dir s).
  { destruct Hn' as [->| ->]; cbn; auto. }
  destruct Hf as (Hv & Ha & Hfr).
  repeat split; try assumption.
  - apply extract_audio_agree; assumption.
  - apply extract_frames_agree; assumption.
Qed.

Lemma failed_attempt_keeps_video_witness :
  audio_dir
    (fst (snd (download_video host_unreachable
                 (acquired_session, acquired_world))))
  = audio_dir acquired_session.
Proof.
  assert (Hraise : fst (download_video host_unreachable
                          (acquired_session, acquired_world))
                   = Raise (CineNotesException download_failed
                              (ProviderError "VideoUnavailable"))).
  { vm_compute. reflexivity. }
  assert (Hno : forall p,
             ~ In (EvPersist p)
                 (events_since acquired_world
                    (snd (snd (download_video host_unreachable
                                 (acquired_session, acquired_world)))))).
  { intros p. vm_compute. tauto. }
  exact (proj1 (proj2 (failed_attempt_keeps_video host_unreachable
                         acquired_session acquired_world _ Hraise Hno))).
Defined.

(** ** From the title to the paths of the artifacts *)

Lemma substring_last_cons c x :
  x <> "" ->
  String.substring (String.length (String c x) - 1) 1 (String c x)
  = String.substring (String.length x - 1) 1 x.
Proof.
  destruct x as [|d r]; [congruence|]. intros _.
  cbn [String.length]. rewrite !Nat.sub_succ, !Nat.sub_0_r.
  reflexivity.
Qed.

Lemma append_nonempty_r a b : b <> "" -> a +:+ b <> "".
Proof.
  intros Hb. destruct a as [|c a]; [exact Hb|].
  change (String c a +:+ b) with (String c (a +:+ b)). discriminate.
Qed.

Lemma append_nonempty_l a b : a <> "" -> a +:+ b <> "".
Proof.
  destruct a as [|c a]; [congruence|]. intros _.
  change (String c a +:+ b) with (String c (a +:+ b)). discriminate.
Qed.

Lemma endswith_sep_append a b :
  b <> "" -> endswith_sep (a +:+ b) = endswith_sep b.
Proof.
  intros Hb. unfold endswith_sep.
  induction a as [|c a IH]; [reflexivity|].
  change (String c a +:+ b) with (String c (a +:+ b)).
  rewrite substring_last_cons by (apply append_nonempty_r, Hb).
  exact IH.
Qed.

Lemma endswith_sep_In x :
  endswith_sep x = true -> In "/"%char (list_ascii_of_string x).
Proof.
  unfold endswith_sep.
  induction x as [|c x IH]; [discriminate|].
  destruct x as [|d r].
  - cbn. destruct (Ascii.eqb_spec c "/") as [->|];
      [intros _; left; reflexivity | discriminate].
  - rewrite substring_last_cons by discriminate.
    intros H. right. apply IH, H.
Qed.

Lemma sanitized_no_trailing_sep t : endswith_sep (_sanitize_filename t) = false.
Proof.
  destruct (endswith_sep (_sanitize_filename t)) eqn:E; [|reflexivity].
  apply endswith_sep_In, sanitized_chars_kept in E. discriminate E.
Qed.

Lemma append_assoc a b c : (a +:+ b) +:+ c = a +:+ (b +:+ c).
Proof.
  induction a as [|x a IH]; [reflexivity|].
  change ((String x a +:+ b) +:+ c) with (String x ((a +:+ b) +:+ c)).
  change (String x a +:+ (b +:+ c)) with (String x (a +:+ (b +:+ c))).
  f_equal. exact IH.
Qed.

Lemma acquired_session_form h s w p s' w' stream t :
  download_video h (s, w) = (Return p, (s', w')) ->
  resolve h w (youtube_url s) = Return (stream, t) ->
  s' = with_video
         (os_path_join (output_base_dir s) (_sanitize_filename t)) p s.
Proof.
  intros E Hres. apply download_video_acquisition in E.
  inversion E; subst; clear E.
  match goal with
  | H : resolve _ _ _ = _ |- _ => rewrite Hres in H; inversion H; subst
  end.
  reflexivity.
Qed.

(** X21. From the title to the artifacts.  When an acquisition returns a
    video path, for a title whose sanitized name [T] is not empty and a
    base directory [B] without trailing separator, the session holds
    [B/T], [B/T/audio] and [B/T/frames]; [extract_audio] with a relative
    file name then has the decoder write [B/T/audio/name] and returns
    that path on success, and [extract_frames] with a relative prefix has
    it write [B/T/frames/prefix%05d.format] and returns [B/T/frames]. *)
Theorem paths_from_title h s w p s' w' stream t (fname pre fmt : string) :
  download_video h (s, w) = (Return p, (s', w')) ->
  resolve h w (youtube_url s) = Return (stream, t) ->
  p <> "" ->
  output_base_dir s <> "" -> endswith_sep (output_base_dir s) = false ->
  _sanitize_filename t <> "" ->
  let root := output_base_dir s +:+ "/" +:+ _sanitize_filename t in
  video_dir s' = Some root
  /\ audio_dir s' = Some (root +:+ "/audio")
  /\ frames_dir s' = Some (root +:+ "/frames")
  /\ (forall w2,
        String.prefix "/" fname = false ->
        events_since w2 (snd (snd (extract_audio h fname (s', w2))))
        = [EvRun (audio_cmd p (root +:+ "/audio/" +:+ fname))]
        /\ (spawn h w2 (audio_cmd p (root +:+ "/audio/" +:+ fname))
            = Exited 0 ->
            fst (extract_audio h fname (s', w2))
            = Return (root +:+ "/audio/" +:+ fname)))
  /\ (forall w2,
        String.prefix "/" pre = false ->
        events_since w2 (snd (snd (extract_frames h pre fmt (s', w2))))
        = [EvRun (frames_cmd p
                    (root +:+ "/frames/" +:+ pre +:+ "%05d." +:+ fmt))]
        /\ (spawn h w2
              (frames_cmd p
                 (root +:+ "/frames/" +:+ pre +:+ "%05d." +:+ fmt))
            = Exited 0 ->
            fst (extract_frames h pre fmt (s', w2))
            = Return (Some (root +:+ "/frames")))).
Proof.
  intros E Hres Hp Hb He Ht root.
  rewrite (acquired_session_form h s w p s' w' stream t E Hres).
  assert (Hroot : os_path_join (output_base_dir s) (_sanitize_filename t)
                  = root).
  { apply os_path_join_relative;
      [apply sanitized_not_absolute | exact Hb | exact He]. }
  assert (Hrne : root <> "") by (apply append_nonempty_l, Hb).
  assert (Hre : endswith_sep root = false).
  { unfold root. rewrite endswith_sep_append
      by (apply append_nonempty_r, Ht).
    rewrite endswith_sep_append by exact Ht.
    apply sanitized_no_trailing_sep. }
  assert (Ha : os_path_join root "audio" = root +:+ "/audio").
  { apply os_path_join_relative; [reflexivity | exact Hrne | exact Hre]. }
  assert (Hf : os_path_join root "frames" = root +:+ "/frames").
  { apply os_path_join_relative; [reflexivity | exact Hrne | exact Hre]. }
  rewrite Hroot.
  unfold with_video, with_frames_dir, with_audio_dir, with_video_filename,
    with_video_dir.
  cbn [video_dir audio_dir frames_dir]. rewrite Ha, Hf.
  split; [reflexivity|]. split; [reflexivity|]. split; [reflexivity|].
  split.
  - intros w2 Hn.
    rewrite (extract_audio_with_video h _ w2 fname p (root +:+ "/audio"))
      by (try reflexivity; exact Hp).
    cbn [fst snd].
    assert (Hj : os_path_join (root +:+ "/audio") fname
                 = root +:+ "/audio/" +:+ fname).
    { rewrite os_path_join_relative;
        [ rewrite append_assoc; reflexivity
        | exact Hn
        | apply append_nonempty_r; discriminate
        | rewrite endswith_sep_append by discriminate; reflexivity ]. }
    rewrite Hj. split; [apply events_since_log|]. intros ->. reflexivity.
  - intros w2 Hn.
    rewrite (extract_frames_with_video h _ w2 pre fmt p (root +:+ "/frames"))
      by (try reflexivity; exact Hp).
    cbn [fst snd].
    assert (Hj : os_path_join (root +:+ "/frames")
                   (pre +:+ "%05d." +:+ fmt)
                 = root +:+ "/frames/" +:+ pre +:+ "%05d." +:+ fmt).
    { rewrite os_path_join_relative;
        [ rewrite append_assoc; reflexivity
        | destruct pre as [|c r]; [reflexivity | apply prefix_sep_app, Hn]
        | apply append_nonempty_r; discriminate
        | rewrite endswith_sep_append by discriminate; reflexivity ]. }
    rewrite Hj. split; [apply events_since_log|]. intros ->. reflexivity.
Qed.

Lemma paths_from_title_witness :
  fst (extract_audio host_ok default_audio_filename
         (acquired_session, acquired_world))
  = Return ("/work/my_videos" +:+ "/" +:+ "My Clip Test"
              +:+ "/audio/" +:+ default_audio_filename).
Proof.
  assert (Hrun : download_video host_ok (fresh_session, fresh_world)
                 = (Return "/work/my_videos/My Clip Test/video.mp4",
                    (acquired_session, acquired_world))).
  { vm_compute. reflexivity. }
  pose proof (paths_from_title host_ok fresh_session fresh_world _ _ _
                (Some good_stream) "My Clip: Test!" default_audio_filename
                default_image_prefix default_image_format Hrun eq_refl
                ltac:(discriminate) ltac:(discriminate) eq_refl
                ltac:(discriminate)) as H.
  cbv zeta in H. destruct H as (_ & _ & _ & H & _).
  exact (proj2 (H acquired_world eq_refl) eq_refl).
Defined.
